(** * Java Vulnerability Detector API: a shallow embedding of [app.py]

    The service wraps a pretrained sequence classifier behind four HTTP
    endpoints.  The module-level globals [tokenizer], [model] and [device]
    are an explicit record threaded through the startup hook and the
    handlers together with the log; Python exceptions are the [Raise]
    branch of a result type.

    The ML framework (transformers / torch) is not part of the repository:
    its entry points are the fields of a [Framework] record, every one a
    function of its arguments that may raise.  Tensor scores are idealised
    as real numbers, so [torch.softmax], [torch.argmax] and [round] are
    their textbook definitions on [R]; NaN and infinities are outside the
    model.

    Module [Floating] gives the handler a second time with the scores as
    the Python floats they are, NaN included, and with [torch.softmax] and
    [round] as the library computes them: what the service does with a
    score that is not a number is stated there. *)

From Stdlib Require Import String Ascii List Bool Arith ZArith Lia.
From Stdlib Require Import Reals Lra Relations.
From Corelib Require PrimFloat.
Import ListNotations.

Open Scope string_scope.

(** ** Outcomes of Python code: a value, or a raised exception *)

Inductive result (E A : Type) : Type :=
| Ok (a : A)
| Raise (e : E).

Arguments Ok {E A} a.
Arguments Raise {E A} e.

(** An instance of [Exception] raised inside the framework, as caught by
    [except Exception as e]; only [str(e)] is ever observed by the
    service. *)
Record PyException : Type := mkException { exc_str : string }.

(** [fastapi.HTTPException(status_code, detail)]. *)
Record HTTPException : Type := mkHTTPException {
  status_code : Z;
  detail : string
}.

(** [RuntimeError(msg)], raised by the startup hook. *)
Record RuntimeError : Type := mkRuntimeError { runtime_msg : string }.

(** ** Numeric kernel: softmax, argmax and rounding *)

Module Numeric.

Open Scope R_scope.

(** Denominator of the exponential normalisation. *)
Definition sum_exp (l : list R) : R :=
  fold_right (fun x acc => exp x + acc) 0 l.

(** [torch.softmax(logits, dim=-1)] on one row. *)
Definition softmax (l : list R) : list R :=
  map (fun x => exp x / sum_exp l) l.

(** Scan keeping the first maximal entry: [best_i] is its index, [best]
    its value, [i] the index of the head of the remaining row. *)
Fixpoint argmax_from (best_i : nat) (best : R) (i : nat) (l : list R) : nat :=
  match l with
  | [] => best_i
  | x :: t =>
      if Rlt_dec best x then argmax_from i x (S i) t
      else argmax_from best_i best (S i) t
  end.

(** [torch.argmax(logits, dim=-1).item()] on one row; an empty row has no
    maximum and the call raises. *)
Definition argmax (l : list R) : option nat :=
  match l with
  | [] => None
  | x :: t => Some (argmax_from 0 x 1 t)
  end.

(** Round to the nearest integer, ties to the even one. *)
Definition round_half_even (x : R) : Z :=
  let f := Int_part x in
  let d := x - IZR f in
  if Rlt_dec d (1 / 2) then f
  else if Rlt_dec (1 / 2) d then (f + 1)%Z
  else if Z.even f then f else (f + 1)%Z.

(** [round(x, ndigits)]. *)
Definition round (x : R) (ndigits : nat) : R :=
  IZR (round_half_even (x * 10 ^ ndigits)) / 10 ^ ndigits.

End Numeric.

(** ** The ML framework, as the service sees it *)

(** [torch.device("cuda")] and [torch.device("cpu")]. *)
Inductive Device : Type := Cuda | Cpu.

(** [str(device)]. *)
Definition str_device (d : option Device) : string :=
  match d with
  | None => "None"
  | Some Cuda => "cuda"
  | Some Cpu => "cpu"
  end.

(** The calls [app.py] makes into transformers and torch.  A tokenizer,
    a model and a batch of tensors are opaque values. *)
Record Framework : Type := {
  Tokenizer : Type;
  Model : Type;
  Tensors : Type;
  (** [torch.cuda.is_available()] *)
  cuda_is_available : bool;
  (** [AutoTokenizer.from_pretrained(name)] *)
  AutoTokenizer_from_pretrained : string -> result PyException Tokenizer;
  (** [AutoModelForSequenceClassification.from_pretrained(path)] *)
  AutoModel_from_pretrained : string -> result PyException Model;
  (** [model.to(device)]: the module after the move *)
  module_to : Model -> Device -> result PyException Model;
  (** [model.eval()]: the module in evaluation mode *)
  module_eval : Model -> Model;
  (** [tokenizer(text, return_tensors="pt", padding=p, truncation=t,
      max_length=n)] *)
  tokenizer_call :
    Tokenizer -> string -> bool -> bool -> nat -> result PyException Tensors;
  (** number of token positions of the single encoded sequence *)
  seq_len : Tensors -> nat;
  (** [{k: v.to(device) for k, v in inputs.items()}] *)
  tensors_to : Tensors -> option Device -> result PyException Tensors;
  (** the [logits] of the forward pass on [inputs]: the row of the one
      sequence in the batch *)
  forward : Model -> Tensors -> result PyException (list R);
  (** what [torch.argmax] raises on a row without entries *)
  argmax_empty_error : PyException
}.

(** ** Request and response models *)

(** A Python [str] is the sequence of its characters, one [ascii] for each:
    [String.length] is [len]. *)
Record CodeAnalysisRequest : Type := mkRequest {
  code : string;
  filename : string
}.

Record CodeAnalysisResponse : Type := mkResponse {
  is_vulnerable : bool;
  confidence : R;
  prediction : string;
  resp_filename : string
}.

(** Default of the [filename] field. *)
Definition default_filename : string := "unknown.java".

(** A JSON body offered to [POST /analyze]: each field is a string or is
    missing. *)
Record RequestBody : Type := mkBody {
  body_code : option string;
  body_filename : option string
}.

(** Construction of a [CodeAnalysisRequest] from a body: [code] is
    required, [filename] falls back to its default. *)
Definition CodeAnalysisRequest_validate (b : RequestBody) : option CodeAnalysisRequest :=
  match body_code b with
  | None => None
  | Some c =>
      Some {| code := c;
              filename := match body_filename b with
                          | Some f => f
                          | None => default_filename
                          end |}
  end.

(** JSON values returned by the static endpoints. *)
#[warnings="-register-all"] Inductive Json : Type :=
| JString (s : string)
| JInt (z : Z)
| JList (l : list Json)
| JDict (l : list (string * Json)).

(** ** Logging *)

Inductive Level : Type := INFO | ERROR.

Inductive LogMessage : Type :=
| Text (s : string)
| UsingDevice (d : Device)
| Analyzing (file : string)
| CodeLength (n : nat)
| Prediction (label : string) (conf : R)
| PredictionFloat (label : string) (conf : PrimFloat.float)
| AnalysisFailed (e : string)
| LoadFailed (e : string).

Definition LogRecord : Type := (Level * LogMessage)%type.

Fixpoint repeat_string (s : string) (n : nat) : string :=
  match n with
  | O => ""
  | S k => s ++ repeat_string s k
  end.

(** ["=" * 60] *)
Definition banner : string := repeat_string "=" 60.

Definition MODEL_PATH : string := "./model/java-vulnerability-detector-final".

(** ** The service *)

Section Service.

Context (fw : Framework).

(** The module-level variables [tokenizer], [model] and [device]. *)
Record Globals : Type := mkGlobals {
  tokenizer : option (Tokenizer fw);
  model : option (Model fw);
  device : option Device
}.

Record World : Type := mkWorld {
  globals : Globals;
  log : list LogRecord
}.

(** Module initialisation: the three globals are [None]. *)
Definition initial_world : World :=
  {| globals := {| tokenizer := None; model := None; device := None |};
     log := [] |}.

(** *** State and exception monad *)

Definition M (E A : Type) : Type := World -> result E A * World.

Definition ret {E A} (a : A) : M E A := fun w => (Ok a, w).

Definition raise {E A} (e : E) : M E A := fun w => (Raise e, w).

Definition bind {E A B} (m : M E A) (k : A -> M E B) : M E B :=
  fun w =>
    match m w with
    | (Ok a, w') => k a w'
    | (Raise e, w') => (Raise e, w')
    end.

(** [try: body  except Exception as e: handler e] *)
Definition try_except {E E' A} (body : M E A) (handler : E -> M E' A) : M E' A :=
  fun w =>
    match body w with
    | (Ok a, w') => (Ok a, w')
    | (Raise e, w') => handler e w'
    end.

(** A framework call: raises or returns, the world is untouched. *)
Definition call {E A} (r : result E A) : M E A := fun w => (r, w).

Definition get_globals {E} : M E Globals := fun w => (Ok (globals w), w).

Definition emit {E} (lvl : Level) (msg : LogMessage) : M E unit :=
  fun w => (Ok tt, {| globals := globals w; log := log w ++ [(lvl, msg)] |}).

Definition logger_info {E} (msg : LogMessage) : M E unit := emit INFO msg.
Definition logger_error {E} (msg : LogMessage) : M E unit := emit ERROR msg.

Definition set_device {E} (d : Device) : M E unit :=
  fun w =>
    (Ok tt, {| globals := {| tokenizer := tokenizer (globals w);
                             model := model (globals w);
                             device := Some d |};
               log := log w |}).

Definition set_tokenizer {E} (t : Tokenizer fw) : M E unit :=
  fun w =>
    (Ok tt, {| globals := {| tokenizer := Some t;
                             model := model (globals w);
                             device := device (globals w) |};
               log := log w |}).

Definition set_model {E} (m : Model fw) : M E unit :=
  fun w =>
    (Ok tt, {| globals := {| tokenizer := tokenizer (globals w);
                             model := Some m;
                             device := device (globals w) |};
               log := log w |}).

Notation "x <- m ;; k" := (bind m (fun x => k))
  (at level 61, m at next level, right associativity).
Notation "m ;;; k" := (bind m (fun _ => k))
  (at level 61, right associativity).

(** *** Startup hook *)

(** [model.to(device)] and [model.eval()] act on the object bound to the
    global [model]: the global is rebound to the module after each. *)
Definition load_model : M RuntimeError unit :=
  try_except
    (logger_info (Text banner) ;;;
     logger_info (Text "LOADING ML MODEL...") ;;;
     logger_info (Text banner) ;;;
     let d := if cuda_is_available fw then Cuda else Cpu in
     set_device d ;;;
     logger_info (UsingDevice d) ;;;
     logger_info (Text "Loading tokenizer from HuggingFace Hub...") ;;;
     t <- call (AutoTokenizer_from_pretrained fw "microsoft/graphcodebert-base") ;;
     set_tokenizer t ;;;
     logger_info (Text "Tokenizer loaded") ;;;
     logger_info (Text "Loading model...") ;;;
     m <- call (AutoModel_from_pretrained fw MODEL_PATH) ;;
     set_model m ;;;
     m' <- call (module_to fw m d) ;;
     set_model m' ;;;
     set_model (module_eval fw m') ;;;
     logger_info (Text "Model loaded and ready!") ;;;
     logger_info (Text banner) ;;;
     logger_info (Text "ML MODEL SERVICE READY!") ;;;
     logger_info (Text "Model Accuracy: 83.93%") ;;;
     logger_info (Text "Task: Java Vulnerability Detection") ;;;
     logger_info (Text banner))
    (fun e =>
       logger_error (LoadFailed (exc_str e)) ;;;
       raise (mkRuntimeError ("Model loading failed: " ++ exc_str e))).

(** *** GET /health *)

Record HealthReport : Type := mkHealth {
  health_status : string;
  model_loaded : bool;
  tokenizer_loaded : bool;
  health_device : string;
  ready : bool
}.

Definition is_not_None {A} (o : option A) : bool :=
  match o with Some _ => true | None => false end.

Definition health_check {E} : M E HealthReport :=
  g <- get_globals ;;
  ret {| health_status := "healthy";
         model_loaded := is_not_None (model g);
         tokenizer_loaded := is_not_None (tokenizer g);
         health_device := str_device (device g);
         ready := is_not_None (model g) && is_not_None (tokenizer g) |}.

(** *** POST /analyze *)

(** [torch.argmax(logits, dim=-1).item()] *)
Definition argmax_item (logits : list R) : result PyException nat :=
  match Numeric.argmax logits with
  | Some i => Ok i
  | None => Raise (argmax_empty_error fw)
  end.

Definition not_loaded : HTTPException :=
  {| status_code := 503;
     detail := "Model not loaded. Please wait for startup to complete." |}.

(** The handler.  The first [match] is the guard
    [if model is None or tokenizer is None]; the [try] block follows the
    source line by line ([torch.no_grad()] changes no value). *)
Definition analyze_code (request : CodeAnalysisRequest)
  : M HTTPException CodeAnalysisResponse :=
  g <- get_globals ;;
  match model g, tokenizer g with
  | Some mdl, Some tok =>
      try_except
        (logger_info (Analyzing (filename request)) ;;;
         logger_info (CodeLength (String.length (code request))) ;;;
         inputs <- call (tokenizer_call fw tok (code request) true true 512) ;;
         inputs <- call (tensors_to fw inputs (device g)) ;;
         logits <- call (forward fw mdl inputs) ;;
         let probabilities := Numeric.softmax logits in
         prediction_idx <- call (argmax_item logits) ;;
         let confidence := nth prediction_idx probabilities 0%R in
         let is_vulnerable := Nat.eqb prediction_idx 1 in
         let prediction_label :=
           if is_vulnerable then "VULNERABLE" else "SAFE" in
         logger_info (Prediction prediction_label confidence) ;;;
         ret {| is_vulnerable := is_vulnerable;
                confidence := Numeric.round confidence 4;
                prediction := prediction_label;
                resp_filename := filename request |})
        (fun e =>
           logger_error (AnalysisFailed (exc_str e)) ;;;
           raise {| status_code := 500;
                    detail := "Analysis failed: " ++ exc_str e |})
  | _, _ => raise not_loaded
  end.

(** The route: a body that does not validate is answered 422 before the
    handler runs. *)
Definition unprocessable : HTTPException :=
  {| status_code := 422; detail := "Field required" |}.

Definition post_analyze (b : RequestBody)
  : M HTTPException CodeAnalysisResponse :=
  match CodeAnalysisRequest_validate b with
  | Some request => analyze_code request
  | None => raise unprocessable
  end.

(** *** GET / and GET /stats *)

Definition root {E} : M E Json :=
  ret (JDict
         [("service", JString "Java Vulnerability Detector");
          ("status", JString "running");
          ("model", JString "GraphCodeBERT");
          ("accuracy", JString "83.93%");
          ("version", JString "1.0.0");
          ("endpoints",
            JDict [("analyze", JString "POST /analyze");
                   ("health", JString "GET /health");
                   ("docs", JString "GET /docs")])]).

Definition get_stats {E} : M E Json :=
  ret (JDict
         [("model_name", JString "GraphCodeBERT");
          ("architecture", JString "microsoft/graphcodebert-base");
          ("task", JString "Binary Classification (Safe/Vulnerable)");
          ("training_data",
            JDict [("dataset",
                     JString "mcanoglu/defect-detection (Java only) + augmentation");
                   ("examples", JInt 3591);
                   ("augmentation",
                     JString "Variable renaming, comments, whitespace")]);
          ("performance",
            JDict [("test_accuracy", JString "83.93%");
                   ("precision", JString "84.00%");
                   ("recall", JString "83.44%");
                   ("f1_score", JString "83.72%")]);
          ("capabilities",
            JList [JString "SQL Injection detection";
                   JString "Cross-Site Scripting (XSS)";
                   JString "Path Traversal";
                   JString "Command Injection";
                   JString "Insecure Deserialization";
                   JString "XXE (XML External Entity)";
                   JString "Hardcoded secrets";
                   JString "And more security vulnerabilities"])]).

(** *** The process: startup, then requests *)

Inductive HttpCall : Type :=
| GET_root
| GET_health
| POST_analyze (b : RequestBody)
| GET_stats.

Inductive HttpReply : Type :=
| ReplyJson (j : Json)
| ReplyHealth (h : HealthReport)
| ReplyAnalysis (r : result HTTPException CodeAnalysisResponse).

(** Routing of one request to its handler. *)
Definition handle (c : HttpCall) (w : World) : HttpReply * World :=
  match c with
  | GET_root =>
      match root (E := HTTPException) w with
      | (Ok j, w') => (ReplyJson j, w')
      | (Raise e, w') => (ReplyAnalysis (Raise e), w')
      end
  | GET_health =>
      match health_check (E := HTTPException) w with
      | (Ok h, w') => (ReplyHealth h, w')
      | (Raise e, w') => (ReplyAnalysis (Raise e), w')
      end
  | POST_analyze b =>
      let (r, w') := post_analyze b w in (ReplyAnalysis r, w')
  | GET_stats =>
      match get_stats (E := HTTPException) w with
      | (Ok j, w') => (ReplyJson j, w')
      | (Raise e, w') => (ReplyAnalysis (Raise e), w')
      end
  end.

(** The server runs the startup hook before it accepts traffic; a hook
    that raises ends the process. *)
Inductive Process : Type :=
| Booting (w : World)
| Serving (w : World)
| Aborted (w : World) (e : RuntimeError).

Definition boot (w : World) : Process :=
  match load_model w with
  | (Ok _, w') => Serving w'
  | (Raise e, w') => Aborted w' e
  end.

Inductive step : Process -> Process -> Prop :=
| step_startup (w : World) : step (Booting w) (boot w)
| step_request (w : World) (c : HttpCall) :
    step (Serving w) (Serving (snd (handle c w))).

Definition reachable (p : Process) : Prop :=
  clos_refl_trans_n1 Process step (Booting initial_world) p.

(** Requests served one after the other. *)
Fixpoint serve_all (cs : list HttpCall) (w : World) : World :=
  match cs with
  | [] => w
  | c :: cs' => serve_all cs' (snd (handle c w))
  end.

(** *** The framework calls of the [try] block, in order

    [infer] is the chain tokenizer, device transfer, forward pass and
    arg-max of [analyze_code], without the logging around it;
    [interpret] is the construction of the response from its result. *)

Definition infer (mdl : Model fw) (tok : Tokenizer fw) (dev : option Device)
           (text : string) : result PyException (list R * nat) :=
  match tokenizer_call fw tok text true true 512 with
  | Raise e => Raise e
  | Ok inputs =>
      match tensors_to fw inputs dev with
      | Raise e => Raise e
      | Ok inputs' =>
          match forward fw mdl inputs' with
          | Raise e => Raise e
          | Ok logits =>
              match argmax_item logits with
              | Raise e => Raise e
              | Ok idx => Ok (logits, idx)
              end
          end
      end
  end.

Definition selected_probability (li : list R * nat) : R :=
  nth (snd li) (Numeric.softmax (fst li)) 0%R.

Definition label_of (idx : nat) : string :=
  if Nat.eqb idx 1 then "VULNERABLE" else "SAFE".

Definition interpret (file : string) (li : list R * nat) : CodeAnalysisResponse :=
  {| is_vulnerable := Nat.eqb (snd li) 1;
     confidence := Numeric.round (selected_probability li) 4;
     prediction := label_of (snd li);
     resp_filename := file |}.

(** The verdict of a reply: everything but the echoed file name. *)
Definition verdict (r : result HTTPException CodeAnalysisResponse)
  : result HTTPException (bool * R * string) :=
  match r with
  | Ok resp => Ok (is_vulnerable resp, confidence resp, prediction resp)
  | Raise e => Raise e
  end.

Definition status_of {A} (r : result HTTPException A) : option Z :=
  match r with
  | Ok _ => None
  | Raise e => Some (status_code e)
  end.

(** *** The framework calls of the startup hook *)

Definition startup_device : Device :=
  if cuda_is_available fw then Cuda else Cpu.

(** The framework calls of [load_model], in order: the tokenizer, the
    weights, the move to the device. *)
Definition acquire : result PyException (Tokenizer fw * Model fw) :=
  match AutoTokenizer_from_pretrained fw "microsoft/graphcodebert-base" with
  | Raise e => Raise e
  | Ok t =>
      match AutoModel_from_pretrained fw MODEL_PATH with
      | Raise e => Raise e
      | Ok m =>
          match module_to fw m startup_device with
          | Raise e => Raise e
          | Ok m' => Ok (t, module_eval fw m')
          end
      end
  end.

Definition loading_failed (e : PyException) : RuntimeError :=
  mkRuntimeError ("Model loading failed: " ++ exc_str e).

(** *** Log and error of one analysis *)

(** Log records written by one analysis. *)
Definition analysis_log (request : CodeAnalysisRequest)
           (r : result PyException (list R * nat)) : list LogRecord :=
  [(INFO, Analyzing (filename request));
   (INFO, CodeLength (String.length (code request)))] ++
  match r with
  | Ok li => [(INFO, Prediction (label_of (snd li)) (selected_probability li))]
  | Raise e => [(ERROR, AnalysisFailed (exc_str e))]
  end.

Definition analysis_failed (e : PyException) : HTTPException :=
  {| status_code := 500; detail := "Analysis failed: " ++ exc_str e |}.

End Service.

Arguments mkGlobals {fw} _ _ _.
Arguments tokenizer {fw} g.
Arguments model {fw} g.
Arguments device {fw} g.
Arguments mkWorld {fw} _ _.
Arguments globals {fw} w.
Arguments log {fw} w.
Arguments Booting {fw} w.
Arguments Serving {fw} w.
Arguments Aborted {fw} w e.

(** ** A stub framework

    Tokens are the characters of the text; loading, tokenisation and the
    forward pass are supplied by the caller, so that a test can make any
    of them raise. *)

Definition chars (s : string) : list nat :=
  map nat_of_ascii (list_ascii_of_string s).

Definition stub
    (load_tok load_mdl : result PyException unit)
    (tokenize : string -> result PyException (list nat))
    (run : list nat -> result PyException (list R)) : Framework :=
  {| Tokenizer := unit;
     Model := unit;
     Tensors := list nat;
     cuda_is_available := false;
     AutoTokenizer_from_pretrained := fun _ => load_tok;
     AutoModel_from_pretrained := fun _ => load_mdl;
     module_to := fun m _ => Ok m;
     module_eval := fun m => m;
     tokenizer_call := fun _ text _ truncation max_length =>
       match tokenize text with
       | Ok ids => Ok (if truncation then firstn max_length ids else ids)
       | Raise e => Raise e
       end;
     seq_len := @List.length nat;
     tensors_to := fun t _ => Ok t;
     forward := fun _ t => run t;
     argmax_empty_error := mkException "argmax(): expected a non-empty row" |}.

(** A stub whose model scores every text [0, 1]. *)
Definition stub_ok : Framework :=
  stub (Ok tt) (Ok tt) (fun s => Ok (chars s)) (fun _ => Ok [0%R; 1%R]).

(** A stub whose tokenizer raises [e] on every text. *)
Definition stub_raising (e : PyException) : Framework :=
  stub (Ok tt) (Ok tt) (fun _ => Raise e) (fun _ => Ok [0%R; 1%R]).

(** A stub whose model weights cannot be loaded. *)
Definition stub_no_weights : Framework :=
  stub (Ok tt) (Raise (mkException "weights not found"))
       (fun s => Ok (chars s)) (fun _ => Ok [0%R; 1%R]).

Definition loaded (fw : Framework) (t : Tokenizer fw) (m : Model fw) : World fw :=
  {| globals := {| tokenizer := Some t; model := Some m; device := Some Cpu |};
     log := [] |}.

(** ** Vocabulary of the properties *)

(** What the service expects of the framework on long inputs: a tokenizer
    asked to truncate to [n] positions keeps [n] of them when the text has
    more and all of them otherwise, moving tensors keeps their length, and
    the model scores every sequence within its budget. *)
Definition truncates_to (fw : Framework) (tok : Tokenizer fw) (n : nat) : Prop :=
  forall (text : string) (padding : bool) (full : Tensors fw),
    tokenizer_call fw tok text padding false n = Ok full ->
    exists t, tokenizer_call fw tok text padding true n = Ok t /\
              seq_len fw t = Nat.min n (seq_len fw full).

Definition transfers (fw : Framework) (dev : option Device) : Prop :=
  forall t : Tensors fw,
    exists t', tensors_to fw t dev = Ok t' /\ seq_len fw t' = seq_len fw t.

Definition accepts (fw : Framework) (mdl : Model fw) (n : nat) : Prop :=
  forall t : Tensors fw,
    seq_len fw t <= n ->
    exists logits, forward fw mdl t = Ok logits /\ logits <> [].

(** The reading of "a generic message that does not expose the
    exception": one detail string serves every failure. *)
Definition failure_detail_is_generic : Prop :=
  exists d : string,
    forall (fw : Framework) (request : CodeAnalysisRequest) (w : World fw)
           (mdl : Model fw) (tok : Tokenizer fw) (e : PyException),
      model (globals w) = Some mdl ->
      tokenizer (globals w) = Some tok ->
      infer fw mdl tok (device (globals w)) (code request) = Raise e ->
      fst (analyze_code fw request w) =
      Raise {| status_code := 500; detail := d |}.

(** The reading of "in every reachable state the Model Resource is
    all-or-nothing": the globals of every reachable process state are both
    populated or both absent. *)
Definition world_of {fw : Framework} (p : Process fw) : World fw :=
  match p with
  | Booting w => w
  | Serving w => w
  | Aborted w _ => w
  end.

Definition all_or_nothing {fw : Framework} (g : Globals fw) : Prop :=
  (tokenizer g <> None /\ model g <> None) \/
  (tokenizer g = None /\ model g = None).

Definition resource_is_all_or_nothing_everywhere : Prop :=
  forall (fw : Framework) (p : Process fw),
    reachable fw p -> all_or_nothing (globals (world_of p)).

(** ** Logs and replies of a run *)

Definition is_error_record (r : LogRecord) : bool :=
  match fst r with
  | ERROR => true
  | INFO => false
  end.

(** Number of records written with [logger.error]. *)
Definition error_count (l : list LogRecord) : nat :=
  List.length (filter is_error_record l).

(** A reply with status 500. *)
Definition is_server_error (r : HttpReply) : bool :=
  match r with
  | ReplyAnalysis (Raise e) => Z.eqb (status_code e) 500
  | _ => false
  end.

(** The routes that are plain [GET]s. *)
Definition is_get (c : HttpCall) : bool :=
  match c with
  | POST_analyze _ => false
  | _ => true
  end.

(** The replies to requests served one after the other. *)
Fixpoint replies (fw : Framework) (cs : list HttpCall) (w : World fw)
  : list HttpReply :=
  match cs with
  | [] => []
  | c :: cs' => fst (handle fw c w) :: replies fw cs' (snd (handle fw c w))
  end.

(** ** More stubs *)

(** A stub whose tokenizer cannot be fetched. *)
Definition stub_no_tokenizer : Framework :=
  stub (Raise (mkException "hub unreachable")) (Ok tt)
       (fun s => Ok (chars s)) (fun _ => Ok [0%R; 1%R]).

(** A stub whose model cannot be moved to the device. *)
Definition stub_no_device : Framework :=
  {| Tokenizer := unit;
     Model := unit;
     Tensors := list nat;
     cuda_is_available := true;
     AutoTokenizer_from_pretrained := fun _ => Ok tt;
     AutoModel_from_pretrained := fun _ => Ok tt;
     module_to := fun _ _ => Raise (mkException "CUDA error");
     module_eval := fun m => m;
     tokenizer_call := fun _ text _ _ _ => Ok (chars text);
     seq_len := @List.length nat;
     tensors_to := fun t _ => Ok t;
     forward := fun _ _ => Ok [0%R; 1%R];
     argmax_empty_error := mkException "argmax(): expected a non-empty row" |}.

(** A stub with a three-label head that always prefers the last label. *)
Definition stub_three_labels : Framework :=
  stub (Ok tt) (Ok tt) (fun s => Ok (chars s)) (fun _ => Ok [0%R; 0%R; 1%R]).

(** A stub whose model is undecided on every text. *)
Definition stub_tie : Framework :=
  stub (Ok tt) (Ok tt) (fun s => Ok (chars s)) (fun _ => Ok [0%R; 0%R]).

(** A stub with a single-label head. *)
Definition stub_single_label : Framework :=
  stub (Ok tt) (Ok tt) (fun s => Ok (chars s)) (fun _ => Ok [0%R]).

(** ** The handler on Python floats

    [analyze_code] once more, line by line, with the scores as the source
    has them: the logits and the probabilities are rows of floats and
    [confidence] is a Python [float], NaN included.  [torch.softmax] and the
    builtin [round] are what the library computes, given by a [Scores]
    record next to the framework; [torch.argmax] only compares, which
    floats do exactly, and is written out. *)

Module Floating.

Import PrimFloat.

Record Scores (fw : Framework) : Type := {
  (** the [logits] of the forward pass: the row of the one sequence *)
  forward_logits : Model fw -> Tensors fw -> result PyException (list float);
  (** [torch.softmax(logits, dim=-1)] on that row *)
  torch_softmax : list float -> list float;
  (** [round(x, ndigits)] *)
  builtin_round : float -> nat -> float
}.

Arguments forward_logits {fw} s _ _.
Arguments torch_softmax {fw} s _.
Arguments builtin_round {fw} s _ _.

(** Whether [x] takes the place of the running maximum [best]: a NaN is
    maximal and the first one stays. *)
Definition replaces (best x : float) : bool :=
  negb (is_nan best) && (is_nan x || (best <? x)%float).

Fixpoint argmax_from (best_i : nat) (best : float) (i : nat) (l : list float)
  : nat :=
  match l with
  | [] => best_i
  | x :: t =>
      if replaces best x then argmax_from i x (S i) t
      else argmax_from best_i best (S i) t
  end.

(** [torch.argmax(logits, dim=-1)] on one row. *)
Definition argmax (l : list float) : option nat :=
  match l with
  | [] => None
  | x :: t => Some (argmax_from 0 x 1 t)
  end.

Record Response : Type := mkResponse {
  is_vulnerable : bool;
  confidence : float;
  prediction : string;
  resp_filename : string
}.

Definition argmax_item (fw : Framework) (logits : list float)
  : result PyException nat :=
  match argmax logits with
  | Some i => Ok i
  | None => Raise (argmax_empty_error fw)
  end.

Local Notation "x <- m ;; k" := (bind _ m (fun x => k))
  (at level 61, m at next level, right associativity).
Local Notation "m ;;; k" := (bind _ m (fun _ => k))
  (at level 61, right associativity).

Definition analyze_code (fw : Framework) (sc : Scores fw)
           (request : CodeAnalysisRequest) : M fw HTTPException Response :=
  g <- get_globals fw ;;
  match model g, tokenizer g with
  | Some mdl, Some tok =>
      try_except fw
        (logger_info fw (Analyzing (filename request)) ;;;
         logger_info fw (CodeLength (String.length (code request))) ;;;
         inputs <- call fw (tokenizer_call fw tok (code request) true true 512) ;;
         inputs <- call fw (tensors_to fw inputs (device g)) ;;
         logits <- call fw (forward_logits sc mdl inputs) ;;
         let probabilities := torch_softmax sc logits in
         prediction_idx <- call fw (argmax_item fw logits) ;;
         let confidence := nth prediction_idx probabilities 0%float in
         let is_vulnerable := Nat.eqb prediction_idx 1 in
         let prediction_label :=
           if is_vulnerable then "VULNERABLE" else "SAFE" in
         logger_info fw (PredictionFloat prediction_label confidence) ;;;
         ret fw {| is_vulnerable := is_vulnerable;
                   confidence := builtin_round sc confidence 4;
                   prediction := prediction_label;
                   resp_filename := filename request |})
        (fun e =>
           logger_error fw (AnalysisFailed (exc_str e)) ;;;
           raise fw {| status_code := 500;
                       detail := "Analysis failed: " ++ exc_str e |})
  | _, _ => raise fw not_loaded
  end.

(** The range the docstring gives for [confidence]: 0 to 1. *)
Definition in_unit_interval (x : float) : bool :=
  (0 <=? x)%float && (x <=? 1)%float.

(** How the library treats a score that is not a number: a row holding a
    NaN has a NaN at every position of its softmax, and rounding a NaN
    gives a NaN. *)
Definition propagates_nan (softmax : list float -> list float) : Prop :=
  forall (l : list float) (i : nat),
    existsb is_nan l = true -> i < List.length l ->
    nth i (softmax l) 0%float = nan.

Definition keeps_nan (round : float -> nat -> float) : Prop :=
  forall n : nat, round nan n = nan.

(** Scores of a model whose forward pass yields [nan, 0.0] on every text.
    The softmax stands in for the library's on the rows used here: NaN
    everywhere for a row holding a NaN, [1.0] for a row of one entry; the
    rounding stands in for [round] on values it leaves as they are. *)
Definition nan_scores (fw : Framework) : Scores fw :=
  {| forward_logits := fun _ _ => Ok [nan; 0%float];
     torch_softmax := fun l =>
       if existsb is_nan l then map (fun _ => nan) l
       else map (fun _ => 1%float) l;
     builtin_round := fun x _ => x |}.

End Floating.

(** * Properties *)

Module NumericFacts.

Import Numeric.
Open Scope R_scope.


Lemma sum_exp_nonneg (l : list R) : 0 <= sum_exp l.
Proof.
  induction l as [|x t IH]; simpl; [lra|].
  pose proof (exp_pos x); lra.
Qed.

Lemma sum_exp_ge_member (l : list R) (i : nat) :
  (i < length l)%nat -> exp (nth i l 0) <= sum_exp l.
Proof.
  revert i; induction l as [|x t IH]; intros i Hi; simpl in *; [lia|].
  destruct i as [|i].
  - pose proof (sum_exp_nonneg t); lra.
  - assert (Hi' : (i < length t)%nat) by lia.
    specialize (IH i Hi'). pose proof (exp_pos x); lra.
Qed.

Lemma sum_exp_pos (l : list R) : l <> [] -> 0 < sum_exp l.
Proof.
  destruct l as [|x t]; [congruence|]; intros _; simpl.
  pose proof (exp_pos x); pose proof (sum_exp_nonneg t); lra.
Qed.

Lemma softmax_length (l : list R) : length (softmax l) = length l.
Proof. unfold softmax; apply length_map. Qed.

Lemma softmax_nth (l : list R) (i : nat) :
  (i < length l)%nat ->
  nth i (softmax l) 0 = exp (nth i l 0) / sum_exp l.
Proof.
  intros Hi; unfold softmax.
  rewrite (nth_indep _ 0 (exp 0 / sum_exp l)) by (rewrite length_map; exact Hi).
  apply (map_nth (fun x => exp x / sum_exp l)).
Qed.

Lemma softmax_nth_bounds (l : list R) (i : nat) :
  (i < length l)%nat -> 0 <= nth i (softmax l) 0 <= 1.
Proof.
  intros Hi. rewrite softmax_nth by exact Hi.
  assert (Hne : l <> []) by (destruct l; simpl in Hi; [lia | congruence]).
  pose proof (sum_exp_pos l Hne) as Hs.
  pose proof (sum_exp_ge_member l i Hi) as Hm.
  pose proof (exp_pos (nth i l 0)) as He.
  split.
  - apply Rlt_le, Rdiv_lt_0_compat; assumption.
  - apply (Rmult_le_reg_r (sum_exp l)); [exact Hs|].
    unfold Rdiv; rewrite Rmult_assoc, Rinv_l by lra; lra.
Qed.

Lemma softmax_monotone (l : list R) (i j : nat) :
  (i < length l)%nat -> (j < length l)%nat ->
  nth j l 0 <= nth i l 0 ->
  nth j (softmax l) 0 <= nth i (softmax l) 0.
Proof.
  intros Hi Hj Hle. rewrite !softmax_nth by assumption.
  assert (Hne : l <> []) by (destruct l; simpl in Hi; [lia | congruence]).
  pose proof (sum_exp_pos l Hne) as Hs.
  unfold Rdiv; apply Rmult_le_compat_r.
  - apply Rlt_le, Rinv_0_lt_compat; exact Hs.
  - destruct Hle as [Hlt | Heq]; [apply Rlt_le, exp_increasing; exact Hlt|].
    rewrite Heq; lra.
Qed.

(** Invariant of the scan: the result is the running best or a later
    index, and its value dominates the running best and every entry
    scanned. *)
Lemma argmax_from_spec (l : list R) :
  forall best_i best i r,
    argmax_from best_i best i l = r ->
    (r = best_i \/ (i <= r < i + length l)%nat) /\
    (forall full,
        nth best_i full 0 = best ->
        (forall k, (k < length l)%nat -> nth (i + k) full 0 = nth k l 0) ->
        best <= nth r full 0 /\
        forall k, (k < length l)%nat -> nth k l 0 <= nth r full 0).
Proof.
  induction l as [|x t IH]; intros best_i best i r Hr; simpl in Hr.
  - subst r; split; [left; reflexivity|].
    intros full Hb _; split; [lra | simpl; intros k Hk; lia].
  - destruct (Rlt_dec best x) as [Hlt | Hge].
    + destruct (IH _ _ _ _ Hr) as [Hidx Hval]; split.
      * simpl; destruct Hidx as [-> | Hidx]; right; lia.
      * intros full Hb Hfull.
        assert (Hx : nth i full 0 = x).
        { specialize (Hfull 0%nat); simpl in Hfull.
          rewrite Nat.add_0_r in Hfull; apply Hfull; lia. }
        destruct (Hval full Hx) as [H1 H2].
        { intros k Hk. replace (S i + k)%nat with (i + S k)%nat by lia.
          rewrite Hfull by (simpl; lia); reflexivity. }
        split; [lra|].
        intros [|k] Hk; simpl; [exact H1 | apply H2; simpl in Hk; lia].
    + destruct (IH _ _ _ _ Hr) as [Hidx Hval]; split.
      * simpl; destruct Hidx as [-> | Hidx]; [left; reflexivity | right; lia].
      * intros full Hb Hfull.
        assert (Hx : nth i full 0 = x).
        { specialize (Hfull 0%nat); simpl in Hfull.
          rewrite Nat.add_0_r in Hfull; apply Hfull; lia. }
        destruct (Hval full Hb) as [H1 H2].
        { intros k Hk. replace (S i + k)%nat with (i + S k)%nat by lia.
          rewrite Hfull by (simpl; lia); reflexivity. }
        split; [exact H1|].
        intros [|k] Hk; simpl; [lra | apply H2; simpl in Hk; lia].
Qed.

Lemma argmax_spec (l : list R) (i : nat) :
  argmax l = Some i ->
  (i < length l)%nat /\
  forall j, (j < length l)%nat -> nth j l 0 <= nth i l 0.
Proof.
  destruct l as [|x t]; simpl; [discriminate|].
  intros Hi; injection Hi as Hi.
  destruct (argmax_from_spec _ _ _ _ _ Hi) as [Hidx Hval].
  split; [destruct Hidx as [-> | Hidx]; lia|].
  destruct (Hval (x :: t) eq_refl (fun k _ => eq_refl)) as [H1 H2].
  intros [|j] Hj; simpl in *; [exact H1 | apply H2; lia].
Qed.

Lemma argmax_None (l : list R) : argmax l = None <-> l = [].
Proof. destruct l; simpl; split; congruence. Qed.

(** The integer chosen by [round_half_even] is the floor or its
    successor, and lies within one half of the argument. *)
Lemma round_half_even_near (x : R) :
  Rabs (IZR (round_half_even x) - x) <= 1 / 2.
Proof.
  unfold round_half_even.
  destruct (base_Int_part x) as [Hlo Hhi].
  set (f := Int_part x) in *.
  destruct (Rlt_dec (x - IZR f) (1 / 2)) as [H1 | H1].
  - apply Rabs_le; lra.
  - destruct (Rlt_dec (1 / 2) (x - IZR f)) as [H2 | H2].
    + rewrite plus_IZR; apply Rabs_le; lra.
    + destruct (Z.even f); [|rewrite plus_IZR]; apply Rabs_le; lra.
Qed.

Lemma round_half_even_range (x : R) (n : Z) :
  (0 <= n)%Z -> 0 <= x <= IZR n ->
  (0 <= round_half_even x <= n)%Z.
Proof.
  intros Hn [Hx0 Hxn]. unfold round_half_even.
  destruct (base_Int_part x) as [Hlo Hhi].
  set (f := Int_part x) in *.
  assert (Hf0 : (0 <= f)%Z).
  { apply Z.lt_succ_r, lt_IZR. rewrite succ_IZR; lra. }
  assert (Hfn : (f <= n)%Z) by (apply le_IZR; lra).
  assert (Hstep : x - IZR f >= 1 / 2 -> (f + 1 <= n)%Z).
  { intros Hd. apply Z.lt_succ_r, lt_IZR. rewrite succ_IZR, plus_IZR; lra. }
  destruct (Rlt_dec (x - IZR f) (1 / 2)) as [H1 | H1]; [lia|].
  destruct (Rlt_dec (1 / 2) (x - IZR f)) as [H2 | H2].
  - assert (f + 1 <= n)%Z by (apply Hstep; lra); lia.
  - destruct (Z.even f); [lia|].
    assert (f + 1 <= n)%Z by (apply Hstep; lra); lia.
Qed.

Lemma pow10_pos (n : nat) : 0 < 10 ^ n.
Proof. apply pow_lt; lra. Qed.

(** Rounding a probability gives a probability. *)
Lemma round_unit_interval (x : R) (n : nat) :
  0 <= x <= 1 -> 0 <= round x n <= 1.
Proof.
  intros [Hx0 Hx1]. unfold round.
  pose proof (pow10_pos n) as Hp.
  assert (Hpz : 10 ^ n = IZR (10 ^ Z.of_nat n)) by (rewrite <- pow_IZR; reflexivity).
  destruct (round_half_even_range (x * 10 ^ n) (10 ^ Z.of_nat n)) as [Hlo Hhi].
  - apply Z.pow_nonneg; lia.
  - rewrite <- Hpz; split; nra.
  - apply IZR_le in Hlo, Hhi. rewrite <- Hpz in Hhi.
    split.
    + apply Rmult_le_pos; [exact Hlo | apply Rlt_le, Rinv_0_lt_compat; exact Hp].
    + apply (Rmult_le_reg_r (10 ^ n)); [exact Hp|].
      unfold Rdiv; rewrite Rmult_assoc, Rinv_l by lra; lra.
Qed.

(** [round x n] is within half a unit of the n-th decimal place of [x]. *)
Lemma round_error (x : R) (n : nat) :
  Rabs (round x n - x) <= (1 / 2) / 10 ^ n.
Proof.
  unfold round. pose proof (pow10_pos n) as Hp.
  pose proof (round_half_even_near (x * 10 ^ n)) as Hnear.
  replace (IZR (round_half_even (x * 10 ^ n)) / 10 ^ n - x)
    with ((IZR (round_half_even (x * 10 ^ n)) - x * 10 ^ n) / 10 ^ n)
    by (field; lra).
  unfold Rdiv at 1; rewrite Rabs_mult.
  rewrite (Rabs_pos_eq (/ 10 ^ n)) by (apply Rlt_le, Rinv_0_lt_compat; exact Hp).
  unfold Rdiv at 2; apply Rmult_le_compat_r; [|exact Hnear].
  apply Rlt_le, Rinv_0_lt_compat; exact Hp.
Qed.

End NumericFacts.

(** ** What one call of [analyze_code] does *)

Section HandlerFacts.

Context (fw : Framework).

Lemma analyze_code_not_loaded (request : CodeAnalysisRequest) (w : World fw) :
  model (globals w) = None \/ tokenizer (globals w) = None ->
  analyze_code fw request w = (Raise not_loaded, w).
Proof.
  intros H. unfold analyze_code, bind, get_globals.
  destruct (model (globals w)), (tokenizer (globals w));
    destruct H as [H | H]; try discriminate; reflexivity.
Qed.

Lemma analyze_code_loaded (request : CodeAnalysisRequest) (w : World fw)
      (mdl : Model fw) (tok : Tokenizer fw) :
  model (globals w) = Some mdl ->
  tokenizer (globals w) = Some tok ->
  let r := infer fw mdl tok (device (globals w)) (code request) in
  analyze_code fw request w =
  (match r with
   | Ok li => Ok (interpret (filename request) li)
   | Raise e => Raise (analysis_failed e)
   end,
   {| globals := globals w; log := log w ++ analysis_log request r |}).
Proof.
  intros Hm Ht r. subst r.
  unfold analyze_code, bind at 1, get_globals. rewrite Hm, Ht.
  unfold infer, analysis_log, try_except, bind, call, logger_info,
    logger_error, emit, raise, ret; simpl.
  destruct (tokenizer_call fw tok (code request) true true 512) as [inputs | e];
    [|simpl; rewrite <- !app_assoc; reflexivity].
  destruct (tensors_to fw inputs (device (globals w))) as [inputs' | e];
    [|simpl; rewrite <- !app_assoc; reflexivity].
  destruct (forward fw mdl inputs') as [logits | e];
    [|simpl; rewrite <- !app_assoc; reflexivity].
  destruct (argmax_item fw logits) as [idx | e];
    simpl; rewrite <- !app_assoc; reflexivity.
Qed.

(** The handler reads the globals and never assigns them. *)
Lemma analyze_code_globals (request : CodeAnalysisRequest) (w : World fw) :
  globals (snd (analyze_code fw request w)) = globals w.
Proof.
  destruct (model (globals w)) as [mdl|] eqn:Hm.
  - destruct (tokenizer (globals w)) as [tok|] eqn:Ht.
    + rewrite (analyze_code_loaded request w mdl tok Hm Ht); reflexivity.
    + rewrite analyze_code_not_loaded by (right; exact Ht); reflexivity.
  - rewrite analyze_code_not_loaded by (left; exact Hm); reflexivity.
Qed.

Lemma post_analyze_globals (b : RequestBody) (w : World fw) :
  globals (snd (post_analyze fw b w)) = globals w.
Proof.
  unfold post_analyze.
  destruct (CodeAnalysisRequest_validate b); [apply analyze_code_globals|].
  reflexivity.
Qed.

Lemma handle_globals (c : HttpCall) (w : World fw) :
  globals (snd (handle fw c w)) = globals w.
Proof.
  destruct c as [| |b|]; simpl; try reflexivity.
  pose proof (post_analyze_globals b w) as H.
  destruct (post_analyze fw b w); exact H.
Qed.

Lemma serve_all_globals (cs : list (HttpCall)) (w : World fw) :
  globals (serve_all fw cs w) = globals w.
Proof.
  revert w; induction cs as [|c cs IH]; intros w; simpl; [reflexivity|].
  rewrite IH; apply handle_globals.
Qed.

End HandlerFacts.

(** ** Startup *)

Section StartupFacts.

Context (fw : Framework).

(** Evaluation of the hook on a world given by its fields. *)
Ltac run_load :=
  cbv beta iota zeta delta
      [load_model acquire loading_failed startup_device try_except bind call
       raise ret logger_info logger_error emit set_device set_tokenizer
       set_model globals log tokenizer model device fst snd].

(** A hook that returns has bound all three globals. *)
Lemma load_model_returns (w w' : World fw) (u : unit) :
  load_model fw w = (Ok u, w') ->
  exists t m,
    acquire fw = Ok (t, m) /\
    globals w' =
    {| tokenizer := Some t; model := Some m; device := Some (startup_device fw) |}.
Proof.
  destruct w as [[t0 m0 d0] l0]. run_load.
  destruct (AutoTokenizer_from_pretrained fw _) as [t | e]; [|discriminate].
  destruct (AutoModel_from_pretrained fw _) as [m | e]; [|discriminate].
  destruct (module_to fw m _) as [m' | e]; [|discriminate].
  intros H; injection H as _ <-.
  exists t, (module_eval fw m'); split; reflexivity.
Qed.

(** A hook that raises does so with the error of the framework call that
    failed, wrapped in a [RuntimeError]. *)
Lemma load_model_raises (w w' : World fw) (r : RuntimeError) :
  load_model fw w = (Raise r, w') ->
  exists e, acquire fw = Raise e /\ r = loading_failed e.
Proof.
  destruct w as [[t0 m0 d0] l0]. run_load.
  destruct (AutoTokenizer_from_pretrained fw _) as [t | e].
  - destruct (AutoModel_from_pretrained fw _) as [m | e].
    + destruct (module_to fw m _) as [m' | e]; [discriminate|].
      intros H; injection H as <- _; exists e; split; reflexivity.
    + intros H; injection H as <- _; exists e; split; reflexivity.
  - intros H; injection H as <- _; exists e; split; reflexivity.
Qed.

Lemma load_model_total (w : World fw) :
  match acquire fw with
  | Ok _ => exists w', load_model fw w = (Ok tt, w')
  | Raise e => exists w', load_model fw w = (Raise (loading_failed e), w')
  end.
Proof.
  destruct w as [[t0 m0 d0] l0]. run_load.
  destruct (AutoTokenizer_from_pretrained fw _) as [t | e];
    [|eexists; reflexivity].
  destruct (AutoModel_from_pretrained fw _) as [m | e];
    [|eexists; reflexivity].
  destruct (module_to fw m _) as [m' | e]; eexists; reflexivity.
Qed.

(** The hook assigns [tokenizer] before it asks for the weights and
    does not undo the assignment when they fail to load. *)
Lemma load_model_keeps_tokenizer (w : World fw) (t : Tokenizer fw) (e : PyException) :
  AutoTokenizer_from_pretrained fw "microsoft/graphcodebert-base" = Ok t ->
  AutoModel_from_pretrained fw MODEL_PATH = Raise e ->
  fst (load_model fw w) = Raise (loading_failed e) /\
  tokenizer (globals (snd (load_model fw w))) = Some t /\
  model (globals (snd (load_model fw w))) = model (globals w).
Proof.
  intros Ht Hm. destruct w as [[t0 m0 d0] l0]. run_load.
  rewrite Ht, Hm. repeat split; reflexivity.
Qed.

(** Startup either reaches [Serving] or ends in [Aborted]. *)
Lemma boot_cases (w : World fw) :
  match acquire fw with
  | Ok (t, m) =>
      exists w', boot fw w = Serving w' /\
                 tokenizer (globals w') = Some t /\ model (globals w') = Some m
  | Raise e => exists w', boot fw w = Aborted w' (loading_failed e)
  end.
Proof.
  unfold boot. pose proof (load_model_total w) as Htot.
  destruct (acquire fw) as [[t m] | e] eqn:Ha.
  - destruct Htot as [w' Hw']. rewrite Hw'. exists w'.
    destruct (load_model_returns _ _ _ Hw') as (t' & m' & Ha' & Hg).
    rewrite Ha in Ha'; injection Ha' as <- <-.
    rewrite Hg; repeat split; reflexivity.
  - destruct Htot as [w' Hw']. rewrite Hw'. exists w'; reflexivity.
Qed.

Lemma aborted_is_final (w : World fw) (e : RuntimeError) (p : Process fw) :
  ~ step fw (Aborted w e) p.
Proof. intros H; inversion H. Qed.

End StartupFacts.

(** ** Properties of the endpoints *)

Lemma label_of_cases (idx : nat) :
  (idx = 1 -> label_of idx = "VULNERABLE") /\
  (idx <> 1 -> label_of idx = "SAFE") /\
  (Nat.eqb idx 1 = true <-> label_of idx = "VULNERABLE").
Proof.
  unfold label_of. destruct (Nat.eqb idx 1) eqn:E.
  - apply Nat.eqb_eq in E. repeat split; try tauto; congruence.
  - apply Nat.eqb_neq in E. repeat split; try tauto; try discriminate.
Qed.

Lemma infer_argmax (fw : Framework) (mdl : Model fw) (tok : Tokenizer fw)
      (dev : option Device) (text : string) (logits : list R) (idx : nat) :
  infer fw mdl tok dev text = Ok (logits, idx) ->
  Numeric.argmax logits = Some idx.
Proof.
  unfold infer, argmax_item.
  destruct (tokenizer_call fw tok text true true 512) as [t|]; [|discriminate].
  destruct (tensors_to fw t dev) as [t'|]; [|discriminate].
  destruct (forward fw mdl t') as [l|]; [|discriminate].
  destruct (Numeric.argmax l) as [i|] eqn:Ha; [|discriminate].
  intros H; injection H as <- <-; exact Ha.
Qed.

(** A successful analysis is the interpretation of a successful
    inference. *)
Lemma analyze_code_success (fw : Framework) (request : CodeAnalysisRequest)
      (w w' : World fw) (resp : CodeAnalysisResponse) :
  analyze_code fw request w = (Ok resp, w') ->
  exists mdl tok li,
    model (globals w) = Some mdl /\ tokenizer (globals w) = Some tok /\
    infer fw mdl tok (device (globals w)) (code request) = Ok li /\
    resp = interpret (filename request) li.
Proof.
  intros H.
  destruct (model (globals w)) as [mdl|] eqn:Hm;
    [|rewrite analyze_code_not_loaded in H by (left; exact Hm); discriminate].
  destruct (tokenizer (globals w)) as [tok|] eqn:Ht;
    [|rewrite analyze_code_not_loaded in H by (right; exact Ht); discriminate].
  rewrite (analyze_code_loaded fw request w mdl tok Hm Ht) in H.
  exists mdl, tok.
  destruct (infer fw mdl tok (device (globals w)) (code request)) as [li | e];
    [|discriminate].
  exists li. injection H as <- _. repeat split; reflexivity.
Qed.

(** *** The stub framework, evaluated *)

Lemma argmax_0_1 : Numeric.argmax [0%R; 1%R] = Some 1%nat.
Proof.
  unfold Numeric.argmax, Numeric.argmax_from.
  destruct (Rlt_dec 0 1) as [_ | H]; [reflexivity | exfalso; lra].
Qed.

Lemma stub_ok_infer (dev : option Device) (text : string) :
  infer stub_ok tt tt dev text = Ok ([0%R; 1%R], 1%nat).
Proof.
  unfold infer, argmax_item, stub_ok, stub; cbn [tokenizer_call tensors_to forward].
  rewrite argmax_0_1; reflexivity.
Qed.

Lemma stub_ok_analysis (request : CodeAnalysisRequest) :
  analyze_code stub_ok request (loaded stub_ok tt tt) =
  (Ok (interpret (filename request) ([0%R; 1%R], 1%nat)),
   {| globals := globals (loaded stub_ok tt tt);
      log := analysis_log request (Ok ([0%R; 1%R], 1%nat)) |}).
Proof.
  rewrite (analyze_code_loaded stub_ok request (loaded stub_ok tt tt) tt tt eq_refl eq_refl).
  cbn [loaded globals device]. rewrite stub_ok_infer. reflexivity.
Qed.

(** C3. POST /analyze answers 503 exactly when GET /health reports
    [ready = false], that is when the model or the tokenizer is not loaded;
    [ready] is the conjunction of the two loaded flags, and in the not-ready
    case the handler returns the 503 and leaves the world as it was. *)
Theorem analyze_503_iff_not_ready (fw : Framework)
        (request : CodeAnalysisRequest) (w : World fw) :
  exists h : HealthReport,
    health_check fw (E := HTTPException) w = (Ok h, w) /\
    ready h = tokenizer_loaded h && model_loaded h /\
    (status_of (fst (analyze_code fw request w)) = Some 503%Z <->
     ready h = false) /\
    (ready h = false <->
     model (globals w) = None \/ tokenizer (globals w) = None) /\
    (ready h = false -> analyze_code fw request w = (Raise not_loaded, w)) /\
    (ready h = true ->
     status_of (fst (analyze_code fw request w)) <> Some 503%Z).
Proof.
  eexists; split; [reflexivity|]. cbn [ready tokenizer_loaded model_loaded].
  split; [apply andb_comm|].
  destruct (model (globals w)) as [mdl|] eqn:Hm;
    destruct (tokenizer (globals w)) as [tok|] eqn:Ht; cbn [is_not_None andb].
  - rewrite (analyze_code_loaded fw request w mdl tok Hm Ht); cbn [fst].
    assert (Hs : status_of
                   match infer fw mdl tok (device (globals w)) (code request) with
                   | Ok li => Ok (interpret (filename request) li)
                   | Raise e => Raise (analysis_failed e)
                   end <> Some 503%Z).
    { destruct (infer fw mdl tok (device (globals w)) (code request));
        cbn; discriminate. }
    repeat split; try discriminate; try tauto.
    + intros [H | H]; discriminate.
  - rewrite analyze_code_not_loaded by (right; exact Ht).
    repeat split; try reflexivity; try tauto; try discriminate.
  - rewrite analyze_code_not_loaded by (left; exact Hm).
    repeat split; try reflexivity; try tauto; try discriminate.
  - rewrite analyze_code_not_loaded by (left; exact Hm).
    repeat split; try reflexivity; try tauto; try discriminate.
Qed.

(** C8. No POST /analyze request touches the Model Resource: whatever the
    request and its outcome, the tokenizer, model and device globals after
    the handler are those before it; the handler only appends to the log.
    The same holds for a body rejected before the handler runs. *)
Theorem analyze_preserves_model_resource (fw : Framework)
        (request : CodeAnalysisRequest) (b : RequestBody) (w : World fw) :
  tokenizer (globals (snd (analyze_code fw request w))) = tokenizer (globals w) /\
  model (globals (snd (analyze_code fw request w))) = model (globals w) /\
  device (globals (snd (analyze_code fw request w))) = device (globals w) /\
  (exists entries, log (snd (analyze_code fw request w)) = (log w ++ entries)%list) /\
  globals (snd (post_analyze fw b w)) = globals w.
Proof.
  rewrite (analyze_code_globals fw request w).
  repeat split; [|apply post_analyze_globals].
  destruct (model (globals w)) as [mdl|] eqn:Hm.
  - destruct (tokenizer (globals w)) as [tok|] eqn:Ht.
    + rewrite (analyze_code_loaded fw request w mdl tok Hm Ht).
      eexists; reflexivity.
    + rewrite analyze_code_not_loaded by (right; exact Ht).
      exists []; symmetry; apply app_nil_r.
  - rewrite analyze_code_not_loaded by (left; exact Hm).
    exists []; symmetry; apply app_nil_r.
Qed.

(** The verdict depends on the code text and the globals only. *)
Lemma verdict_depends_on_code_and_globals (fw : Framework)
      (r1 r2 : CodeAnalysisRequest) (w1 w2 : World fw) :
  code r1 = code r2 ->
  globals w1 = globals w2 ->
  verdict (fst (analyze_code fw r1 w1)) = verdict (fst (analyze_code fw r2 w2)).
Proof.
  intros Hc Hg.
  destruct (model (globals w1)) as [mdl|] eqn:Hm.
  - destruct (tokenizer (globals w1)) as [tok|] eqn:Ht.
    + rewrite (analyze_code_loaded fw r1 w1 mdl tok Hm Ht).
      rewrite Hg in Hm, Ht.
      rewrite (analyze_code_loaded fw r2 w2 mdl tok Hm Ht).
      rewrite Hg, Hc; cbn [fst].
      destruct (infer fw mdl tok (device (globals w2)) (code r2)); reflexivity.
    + rewrite analyze_code_not_loaded by (right; exact Ht).
      rewrite Hg in Ht.
      rewrite analyze_code_not_loaded by (right; exact Ht). reflexivity.
  - rewrite analyze_code_not_loaded by (left; exact Hm).
    rewrite Hg in Hm.
    rewrite analyze_code_not_loaded by (left; exact Hm). reflexivity.
Qed.

(** C4. Two POST /analyze requests with the same code, the second served
    after the first and after any further requests, with no reload in
    between, get the same prediction, confidence and [is_vulnerable] (or
    the same error). *)
Theorem analyze_deterministic (fw : Framework) (r1 r2 : CodeAnalysisRequest)
        (between : list HttpCall) (w : World fw) :
  code r1 = code r2 ->
  verdict (fst (analyze_code fw r1 w)) =
  verdict (fst (analyze_code fw r2
                  (serve_all fw between (snd (analyze_code fw r1 w))))).
Proof.
  intros Hc. apply verdict_depends_on_code_and_globals; [exact Hc|].
  rewrite serve_all_globals, analyze_code_globals; reflexivity.
Qed.

Lemma analyze_deterministic_witness :
  code (mkRequest "int x;" "A.java") = code (mkRequest "int x;" "B.java") /\
  verdict (fst (analyze_code stub_ok (mkRequest "int x;" "A.java")
                  (loaded stub_ok tt tt))) =
  verdict (fst (analyze_code stub_ok (mkRequest "int x;" "B.java")
                  (serve_all stub_ok [GET_health; GET_stats]
                     (snd (analyze_code stub_ok (mkRequest "int x;" "A.java")
                             (loaded stub_ok tt tt)))))).
Proof.
  split; [reflexivity|].
  apply (analyze_deterministic stub_ok (mkRequest "int x;" "A.java")
           (mkRequest "int x;" "B.java") [GET_health; GET_stats]
           (loaded stub_ok tt tt)).
  reflexivity.
Defined.

(** C10. The file name has no influence on the verdict: two requests with
    the same code and different file names get the same prediction,
    confidence and [is_vulnerable] (or the same error); each successful
    response echoes its own request's file name; the globals are the same
    afterwards, and the two logs differ in the "Analyzing" record only. *)
Theorem filename_does_not_influence_verdict (fw : Framework)
        (text f1 f2 : string) (w : World fw) :
  verdict (fst (analyze_code fw (mkRequest text f1) w)) =
  verdict (fst (analyze_code fw (mkRequest text f2) w)) /\
  match fst (analyze_code fw (mkRequest text f1) w) with
  | Ok resp => resp_filename resp = f1
  | Raise _ => True
  end /\
  match fst (analyze_code fw (mkRequest text f2) w) with
  | Ok resp => resp_filename resp = f2
  | Raise _ => True
  end /\
  globals (snd (analyze_code fw (mkRequest text f1) w)) =
  globals (snd (analyze_code fw (mkRequest text f2) w)) /\
  (log (snd (analyze_code fw (mkRequest text f1) w)) =
   log (snd (analyze_code fw (mkRequest text f2) w)) \/
   exists rest,
     log (snd (analyze_code fw (mkRequest text f1) w)) =
     (log w ++ (INFO, Analyzing f1) :: rest)%list /\
     log (snd (analyze_code fw (mkRequest text f2) w)) =
     (log w ++ (INFO, Analyzing f2) :: rest)%list).
Proof.
  split; [apply verdict_depends_on_code_and_globals; reflexivity|].
  rewrite !analyze_code_globals.
  destruct (model (globals w)) as [mdl|] eqn:Hm.
  - destruct (tokenizer (globals w)) as [tok|] eqn:Ht.
    + rewrite (analyze_code_loaded fw (mkRequest text f1) w mdl tok Hm Ht).
      rewrite (analyze_code_loaded fw (mkRequest text f2) w mdl tok Hm Ht).
      cbn [fst snd code filename log]. unfold analysis_log; cbn [code filename].
      destruct (infer fw mdl tok (device (globals w)) text) as [li | e];
        (repeat split; [right; eexists; split; reflexivity]).
    + rewrite !analyze_code_not_loaded by (right; exact Ht).
      repeat split; left; reflexivity.
  - rewrite !analyze_code_not_loaded by (left; exact Hm).
    repeat split; left; reflexivity.
Qed.

(** C5, as the code has it.  Every exception raised by the tokenizer, the
    device transfer, the forward pass or the arg-max is caught: the handler
    logs it and answers 500 with the detail "Analysis failed: " followed by
    the text of the exception; the globals are untouched. *)
Theorem analysis_failure_reports_exception (fw : Framework)
        (request : CodeAnalysisRequest) (w : World fw)
        (mdl : Model fw) (tok : Tokenizer fw) (e : PyException) :
  model (globals w) = Some mdl ->
  tokenizer (globals w) = Some tok ->
  infer fw mdl tok (device (globals w)) (code request) = Raise e ->
  analyze_code fw request w =
  (Raise {| status_code := 500; detail := "Analysis failed: " ++ exc_str e |},
   {| globals := globals w;
      log := log w ++ [(INFO, Analyzing (filename request));
                       (INFO, CodeLength (String.length (code request)));
                       (ERROR, AnalysisFailed (exc_str e))] |}).
Proof.
  intros Hm Ht Hi.
  rewrite (analyze_code_loaded fw request w mdl tok Hm Ht), Hi.
  reflexivity.
Qed.

(** The failures [infer] propagates are those of the four framework
    calls. *)
Lemma infer_raises (fw : Framework) (mdl : Model fw) (tok : Tokenizer fw)
      (dev : option Device) (text : string) (e : PyException) :
  infer fw mdl tok dev text = Raise e <->
  tokenizer_call fw tok text true true 512 = Raise e \/
  exists inputs,
    tokenizer_call fw tok text true true 512 = Ok inputs /\
    (tensors_to fw inputs dev = Raise e \/
     exists inputs',
       tensors_to fw inputs dev = Ok inputs' /\
       (forward fw mdl inputs' = Raise e \/
        exists logits,
          forward fw mdl inputs' = Ok logits /\
          argmax_item fw logits = Raise e)).
Proof.
  unfold infer.
  destruct (tokenizer_call fw tok text true true 512) as [t | e1] eqn:E1.
  - destruct (tensors_to fw t dev) as [t' | e2] eqn:E2.
    + destruct (forward fw mdl t') as [l | e3] eqn:E3.
      * destruct (argmax_item fw l) as [i | e4] eqn:E4; split.
        -- discriminate.
        -- intros [H | (x & Hx & [H | (y & Hy & [H | (z & Hz & H)])])];
             congruence.
        -- intros H; right; exists t; split; [reflexivity|].
           right; exists t'; split; [exact E2|].
           right; exists l; split; [exact E3 | congruence].
        -- intros [H | (x & Hx & [H | (y & Hy & [H | (z & Hz & H)])])];
             congruence.
      * split.
        -- intros H; right; exists t; split; [reflexivity|].
           right; exists t'; split; [exact E2|]. left; congruence.
        -- intros [H | (x & Hx & [H | (y & Hy & [H | (z & Hz & H)])])];
             congruence.
    + split.
      * intros H; right; exists t; split; [reflexivity|]. left; congruence.
      * intros [H | (x & Hx & [H | (y & Hy & [H | (z & Hz & H)])])];
          congruence.
  - split.
    + intros H; left; congruence.
    + intros [H | (x & Hx & _)]; congruence.
Qed.

Lemma stub_raising_infer (e : PyException) (dev : option Device) (text : string) :
  infer (stub_raising e) tt tt dev text = Raise e.
Proof. reflexivity. Qed.

Lemma analysis_failure_reports_exception_witness :
  model (globals (loaded (stub_raising (mkException "disk full")) tt tt)) = Some tt /\
  tokenizer (globals (loaded (stub_raising (mkException "disk full")) tt tt)) = Some tt /\
  infer (stub_raising (mkException "disk full")) tt tt (Some Cpu) "int x;" =
  Raise (mkException "disk full") /\
  fst (analyze_code (stub_raising (mkException "disk full"))
         (mkRequest "int x;" "A.java")
         (loaded (stub_raising (mkException "disk full")) tt tt)) =
  Raise {| status_code := 500; detail := "Analysis failed: disk full" |}.
Proof.
  split; [reflexivity|]. split; [reflexivity|]. split; [reflexivity|].
  rewrite (analysis_failure_reports_exception
             (stub_raising (mkException "disk full"))
             (mkRequest "int x;" "A.java")
             (loaded (stub_raising (mkException "disk full")) tt tt)
             tt tt (mkException "disk full") eq_refl eq_refl eq_refl).
  reflexivity.
Defined.

(** C5, as stated, fails: the detail of the 500 response carries the text
    of the exception, so no single generic message serves all failures.
    Here a database URL with its password, raised inside the tokenizer,
    reaches the client. *)
Lemma analysis_failure_exposes_exception :
  fst (analyze_code
         (stub_raising (mkException "cannot reach postgres://admin:hunter2@db"))
         (mkRequest "int x;" "A.java")
         (loaded (stub_raising
                    (mkException "cannot reach postgres://admin:hunter2@db"))
                 tt tt)) =
  Raise {| status_code := 500;
           detail := "Analysis failed: cannot reach postgres://admin:hunter2@db" |}
  /\ ~ failure_detail_is_generic.
Proof.
  split.
  - rewrite (analyze_code_loaded
               (stub_raising (mkException "cannot reach postgres://admin:hunter2@db"))
               (mkRequest "int x;" "A.java")
               (loaded (stub_raising
                          (mkException "cannot reach postgres://admin:hunter2@db"))
                       tt tt)
               tt tt eq_refl eq_refl).
    reflexivity.
  - intros [d Hd].
    pose proof (Hd (stub_raising (mkException "a")) (mkRequest "" "")
                   (loaded (stub_raising (mkException "a")) tt tt)
                   tt tt (mkException "a") eq_refl eq_refl eq_refl) as Ha.
    pose proof (Hd (stub_raising (mkException "b")) (mkRequest "" "")
                   (loaded (stub_raising (mkException "b")) tt tt)
                   tt tt (mkException "b") eq_refl eq_refl eq_refl) as Hb.
    rewrite (analyze_code_loaded (stub_raising (mkException "a"))
               (mkRequest "" "")
               (loaded (stub_raising (mkException "a")) tt tt)
               tt tt eq_refl eq_refl) in Ha.
    rewrite (analyze_code_loaded (stub_raising (mkException "b"))
               (mkRequest "" "")
               (loaded (stub_raising (mkException "b")) tt tt)
               tt tt eq_refl eq_refl) in Hb.
    cbv in Ha, Hb. congruence.
Qed.

(** *** Two classes *)

Lemma softmax_pair (a b : R) :
  nth 0 (Numeric.softmax [a; b]) 0%R = (exp a / (exp a + exp b))%R /\
  nth 1 (Numeric.softmax [a; b]) 0%R = (exp b / (exp a + exp b))%R.
Proof.
  unfold Numeric.softmax, Numeric.sum_exp; cbn [map fold_right nth].
  rewrite Rplus_0_r; split; reflexivity.
Qed.

Lemma softmax_pair_total (a b : R) :
  (nth 0 (Numeric.softmax [a; b]) 0 + nth 1 (Numeric.softmax [a; b]) 0 = 1)%R.
Proof.
  destruct (softmax_pair a b) as [-> ->].
  pose proof (exp_pos a); pose proof (exp_pos b). field; lra.
Qed.

Lemma argmax_pair (a b : R) (idx : nat) :
  Numeric.argmax [a; b] = Some idx ->
  (idx = 0%nat /\ (b <= a)%R) \/ (idx = 1%nat /\ (a < b)%R).
Proof.
  unfold Numeric.argmax, Numeric.argmax_from.
  destruct (Rlt_dec a b) as [H | H]; intros E; injection E as <-.
  - right; split; [reflexivity | exact H].
  - left; split; [reflexivity | lra].
Qed.

(** *** Long and empty inputs *)

Lemma stub_transfers (load_tok load_mdl : result PyException unit)
      (tokenize : string -> result PyException (list nat))
      (run : list nat -> result PyException (list R)) (dev : option Device) :
  transfers (stub load_tok load_mdl tokenize run) dev.
Proof. intros t; exists t; split; reflexivity. Qed.

Lemma stub_ok_accepts (n : nat) : accepts stub_ok tt n.
Proof. intros t _; exists [0%R; 1%R]; split; [reflexivity | discriminate]. Qed.

Lemma long_code_length :
  (512 <? seq_len stub_ok (chars (repeat_string "a" 513)))%nat = true.
Proof. vm_compute. reflexivity. Qed.

Lemma stub_truncates_to (load_tok load_mdl : result PyException unit)
      (tokenize : string -> result PyException (list nat))
      (run : list nat -> result PyException (list R)) (n : nat) :
  truncates_to (stub load_tok load_mdl tokenize run) tt n.
Proof.
  intros text padding full; cbn [tokenizer_call seq_len stub].
  destruct (tokenize text) as [ids | e]; [|discriminate].
  intros H; injection H as <-.
  exists (firstn n ids); split; [reflexivity | apply length_firstn].
Qed.

(** C7. A code string whose tokenization has more than 512 positions is
    not rejected.  The handler asks the tokenizer to truncate to 512 and
    checks no length itself: the tensors it moves to the device and hands
    to the model have exactly 512 positions, and its answer is the
    response built from the logits of that forward pass: the label of
    their arg-max, [is_vulnerable] accordingly and the request's file
    name.  The framework is assumed to honour truncation to 512, to move
    tensors without changing their length and to score every sequence of
    at most 512 positions. *)
Theorem long_input_is_truncated_not_rejected (fw : Framework)
        (request : CodeAnalysisRequest) (w : World fw)
        (mdl : Model fw) (tok : Tokenizer fw) (full : Tensors fw) :
  model (globals w) = Some mdl ->
  tokenizer (globals w) = Some tok ->
  tokenizer_call fw tok (code request) true false 512 = Ok full ->
  512 < seq_len fw full ->
  truncates_to fw tok 512 ->
  transfers fw (device (globals w)) ->
  accepts fw mdl 512 ->
  exists (inputs inputs' : Tensors fw) (logits : list R) (idx : nat),
    tokenizer_call fw tok (code request) true true 512 = Ok inputs /\
    seq_len fw inputs = 512 /\
    tensors_to fw inputs (device (globals w)) = Ok inputs' /\
    seq_len fw inputs' = 512 /\
    forward fw mdl inputs' = Ok logits /\
    Numeric.argmax logits = Some idx /\
    analyze_code fw request w =
    (Ok (interpret (filename request) (logits, idx)),
     {| globals := globals w;
        log := log w ++ analysis_log request (Ok (logits, idx)) |}) /\
    is_vulnerable (interpret (filename request) (logits, idx)) =
    Nat.eqb idx 1 /\
    prediction (interpret (filename request) (logits, idx)) =
    (if Nat.eqb idx 1 then "VULNERABLE" else "SAFE") /\
    resp_filename (interpret (filename request) (logits, idx)) =
    filename request.
Proof.
  intros Hm Ht Hfull Hlong Htrunc Hmove Hacc.
  destruct (Htrunc _ _ _ Hfull) as (inputs & Hcall & Hlen).
  rewrite Nat.min_l in Hlen by lia.
  destruct (Hmove inputs) as (inputs' & Hto & Hlen').
  rewrite Hlen in Hlen'.
  destruct (Hacc inputs') as (logits & Hfwd & Hne); [lia|].
  destruct (Numeric.argmax logits) as [idx|] eqn:Ha;
    [|apply NumericFacts.argmax_None in Ha; contradiction].
  assert (Hi : infer fw mdl tok (device (globals w)) (code request) =
               Ok (logits, idx)).
  { unfold infer, argmax_item. rewrite Hcall, Hto, Hfwd, Ha. reflexivity. }
  exists inputs, inputs', logits, idx.
  split; [exact Hcall|]. split; [exact Hlen|]. split; [exact Hto|].
  split; [exact Hlen'|]. split; [exact Hfwd|]. split; [exact Ha|].
  split; [rewrite (analyze_code_loaded fw request w mdl tok Hm Ht), Hi;
          reflexivity|].
  repeat split; reflexivity.
Qed.

Lemma long_input_is_truncated_not_rejected_witness :
  tokenizer_call stub_ok tt (repeat_string "a" 513) true false 512 =
  Ok (chars (repeat_string "a" 513)) /\
  512 < seq_len stub_ok (chars (repeat_string "a" 513)) /\
  exists inputs : Tensors stub_ok,
    tokenizer_call stub_ok tt (repeat_string "a" 513) true true 512 = Ok inputs /\
    seq_len stub_ok inputs = 512 /\
    fst (analyze_code stub_ok (mkRequest (repeat_string "a" 513) "Long.java")
           (loaded stub_ok tt tt)) =
    Ok (interpret "Long.java" ([0%R; 1%R], 1%nat)).
Proof.
  split; [reflexivity|].
  split; [apply Nat.ltb_lt, long_code_length|].
  destruct (long_input_is_truncated_not_rejected stub_ok
              (mkRequest (repeat_string "a" 513) "Long.java")
              (loaded stub_ok tt tt) tt tt (chars (repeat_string "a" 513))
              eq_refl eq_refl eq_refl
              (proj1 (Nat.ltb_lt _ _) long_code_length)
              (stub_truncates_to _ _ _ _ 512) (stub_transfers _ _ _ _ _)
              (stub_ok_accepts 512))
    as (inputs & inputs' & logits & idx & Hcall & Hlen & _ & _ & Hfwd & Ha
        & Hrun & _).
  exists inputs. split; [exact Hcall|]. split; [exact Hlen|].
  rewrite Hrun; cbn [fst].
  cbn [forward stub_ok stub] in Hfwd. injection Hfwd as <-.
  rewrite argmax_0_1 in Ha. injection Ha as <-. reflexivity.
Defined.

(** C9. An empty code string is analysed like any other: the body
    validates, the route hands the request to the handler, the handler
    passes "" to the tokenizer and the model, and the outcome is the
    interpretation of what they return (or the 500 of what they raise);
    the handler answers no other error status, and nothing pins the
    verdict to "SAFE". *)
Theorem empty_code_is_analyzed (fw : Framework) (w : World fw)
        (mdl : Model fw) (tok : Tokenizer fw) (file : string) :
  model (globals w) = Some mdl ->
  tokenizer (globals w) = Some tok ->
  CodeAnalysisRequest_validate (mkBody (Some "") (Some file)) =
  Some (mkRequest "" file) /\
  post_analyze fw (mkBody (Some "") (Some file)) w =
  analyze_code fw (mkRequest "" file) w /\
  fst (analyze_code fw (mkRequest "" file) w) =
  match infer fw mdl tok (device (globals w)) "" with
  | Ok li => Ok (interpret file li)
  | Raise e => Raise (analysis_failed e)
  end /\
  (forall s : Z,
      status_of (fst (analyze_code fw (mkRequest "" file) w)) = Some s ->
      s = 500%Z).
Proof.
  intros Hm Ht.
  split; [reflexivity|]. split; [reflexivity|].
  rewrite (analyze_code_loaded fw (mkRequest "" file) w mdl tok Hm Ht).
  cbn [fst code filename]. split; [reflexivity|].
  intros s.
  destruct (infer fw mdl tok (device (globals w)) "") as [li | e]; cbn.
  - discriminate.
  - intros H; injection H as <-; reflexivity.
Qed.

Lemma empty_code_is_analyzed_witness :
  model (globals (loaded stub_ok tt tt)) = Some tt /\
  tokenizer (globals (loaded stub_ok tt tt)) = Some tt /\
  fst (analyze_code stub_ok (mkRequest "" "Empty.java") (loaded stub_ok tt tt)) =
  Ok (interpret "Empty.java" ([0%R; 1%R], 1%nat)) /\
  prediction (interpret "Empty.java" ([0%R; 1%R], 1%nat)) = "VULNERABLE".
Proof.
  split; [reflexivity|]. split; [reflexivity|].
  destruct (empty_code_is_analyzed stub_ok (loaded stub_ok tt tt) tt tt
              "Empty.java" eq_refl eq_refl) as (_ & _ & Hrun & _).
  cbn [loaded globals device] in Hrun. rewrite stub_ok_infer in Hrun.
  split; [exact Hrun | reflexivity].
Defined.

(** *** The Model Resource over the life of the process *)

(** The globals are assigned one at a time and not rolled back: when the
    weights fail to load, the world left behind holds the tokenizer and no
    model.  That world belongs to an aborted process. *)
Lemma aborted_after_failed_weights :
  exists (w : World stub_no_weights) (e : RuntimeError),
    boot stub_no_weights (initial_world stub_no_weights) = Aborted w e /\
    runtime_msg e = "Model loading failed: weights not found" /\
    tokenizer (globals w) = Some tt /\ model (globals w) = None /\
    forall p', ~ step stub_no_weights (Aborted w e) p'.
Proof.
  destruct (load_model_keeps_tokenizer stub_no_weights
              (initial_world stub_no_weights) tt
              (mkException "weights not found") eq_refl eq_refl)
    as (Hout & Htok & Hmdl).
  unfold boot.
  destruct (load_model stub_no_weights (initial_world stub_no_weights))
    as [[u | e] w]; cbn [fst snd] in *; [discriminate|].
  injection Hout as ->.
  exists w, (loading_failed (mkException "weights not found")).
  split; [reflexivity|]. split; [reflexivity|].
  split; [exact Htok|]. split; [exact Hmdl|].
  intros p'; apply aborted_is_final.
Qed.

(** * Further properties of the code *)

(** ** The startup hook, stage by stage *)

Lemma error_count_app (l1 l2 : list LogRecord) :
  error_count (l1 ++ l2) = (error_count l1 + error_count l2)%nat.
Proof. unfold error_count. rewrite filter_app, length_app. reflexivity. Qed.

Ltac run_hook :=
  cbv beta iota zeta delta
      [load_model try_except bind call raise ret logger_info logger_error emit
       set_device set_tokenizer set_model globals log tokenizer model device
       fst snd].

(** X1. A startup hook that returns has bound [device] to cuda exactly when
    cuda is available, [tokenizer] to the tokenizer fetched from the hub,
    and [model] to the weights read from [MODEL_PATH], moved to that device
    and then put in evaluation mode. *)
Theorem startup_binds_eval_model_on_device (fw : Framework) (w w' : World fw)
        (u : unit) :
  load_model fw w = (Ok u, w') ->
  device (globals w') = Some (if cuda_is_available fw then Cuda else Cpu) /\
  exists (t : Tokenizer fw) (m0 m1 : Model fw),
    AutoTokenizer_from_pretrained fw "microsoft/graphcodebert-base" = Ok t /\
    AutoModel_from_pretrained fw "./model/java-vulnerability-detector-final" =
    Ok m0 /\
    module_to fw m0 (if cuda_is_available fw then Cuda else Cpu) = Ok m1 /\
    tokenizer (globals w') = Some t /\
    model (globals w') = Some (module_eval fw m1).
Proof.
  destruct w as [[t0 m0 d0] l0]. run_hook.
  destruct (AutoTokenizer_from_pretrained fw _) as [t | e] eqn:Et;
    [|discriminate].
  destruct (AutoModel_from_pretrained fw MODEL_PATH) as [m | e] eqn:Em;
    [|discriminate].
  destruct (module_to fw m _) as [m' | e] eqn:Ed; [|discriminate].
  intros H; injection H as _ <-. cbn [globals device tokenizer model].
  split; [reflexivity|].
  exists t, m, m'. repeat split; assumption.
Qed.

Lemma stub_ok_load :
  load_model stub_ok (initial_world stub_ok) =
  (Ok tt, snd (load_model stub_ok (initial_world stub_ok))).
Proof.
  pose proof (load_model_total stub_ok (initial_world stub_ok)) as H.
  change (acquire stub_ok) with (@Ok PyException _ (tt, tt)) in H.
  destruct H as [w' Hw']. rewrite Hw'. reflexivity.
Qed.

Lemma startup_binds_eval_model_on_device_witness :
  load_model stub_ok (initial_world stub_ok) =
  (Ok tt, snd (load_model stub_ok (initial_world stub_ok))) /\
  device (globals (snd (load_model stub_ok (initial_world stub_ok)))) = Some Cpu.
Proof.
  split; [exact stub_ok_load|].
  exact (proj1 (startup_binds_eval_model_on_device stub_ok
                  (initial_world stub_ok) _ tt stub_ok_load)).
Defined.

(** X2. When the tokenizer cannot be fetched the hook raises
    [RuntimeError("Model loading failed: " + str(e))] whatever the weights
    would have done; [tokenizer] and [model] keep their previous values and
    [device] is already bound. *)
Theorem tokenizer_failure_stops_startup (fw : Framework) (w : World fw)
        (e : PyException) :
  AutoTokenizer_from_pretrained fw "microsoft/graphcodebert-base" = Raise e ->
  fst (load_model fw w) =
  Raise (mkRuntimeError ("Model loading failed: " ++ exc_str e)) /\
  tokenizer (globals (snd (load_model fw w))) = tokenizer (globals w) /\
  model (globals (snd (load_model fw w))) = model (globals w) /\
  device (globals (snd (load_model fw w))) =
  Some (if cuda_is_available fw then Cuda else Cpu).
Proof.
  intros Ht. destruct w as [[t0 m0 d0] l0]. run_hook.
  rewrite Ht. repeat split; reflexivity.
Qed.

Lemma tokenizer_failure_stops_startup_witness :
  AutoTokenizer_from_pretrained stub_no_tokenizer "microsoft/graphcodebert-base"
  = Raise (mkException "hub unreachable") /\
  fst (load_model stub_no_tokenizer (initial_world stub_no_tokenizer)) =
  Raise (mkRuntimeError "Model loading failed: hub unreachable") /\
  model (globals (snd (load_model stub_no_tokenizer
                         (initial_world stub_no_tokenizer)))) = None.
Proof.
  split; [reflexivity|].
  destruct (tokenizer_failure_stops_startup stub_no_tokenizer
              (initial_world stub_no_tokenizer)
              (mkException "hub unreachable") eq_refl)
    as (Hout & _ & Hmdl & _).
  split; [exact Hout | exact Hmdl].
Defined.

(** X3. When the weights load and the move to the device fails, the hook
    raises although both globals are bound by then: [tokenizer] holds the
    fetched tokenizer and [model] is not [None]. *)
Theorem device_failure_leaves_both_bound (fw : Framework) (w : World fw)
        (t : Tokenizer fw) (m : Model fw) (e : PyException) :
  AutoTokenizer_from_pretrained fw "microsoft/graphcodebert-base" = Ok t ->
  AutoModel_from_pretrained fw "./model/java-vulnerability-detector-final" =
  Ok m ->
  module_to fw m (if cuda_is_available fw then Cuda else Cpu) = Raise e ->
  fst (load_model fw w) =
  Raise (mkRuntimeError ("Model loading failed: " ++ exc_str e)) /\
  tokenizer (globals (snd (load_model fw w))) = Some t /\
  model (globals (snd (load_model fw w))) <> None.
Proof.
  intros Ht Hm Hd. destruct w as [[t0 m0 d0] l0]. run_hook.
  rewrite Ht. change MODEL_PATH with "./model/java-vulnerability-detector-final".
  rewrite Hm, Hd. repeat split; discriminate.
Qed.

Lemma device_failure_leaves_both_bound_witness :
  AutoTokenizer_from_pretrained stub_no_device "microsoft/graphcodebert-base"
  = Ok tt /\
  AutoModel_from_pretrained stub_no_device
    "./model/java-vulnerability-detector-final" = Ok tt /\
  module_to stub_no_device tt Cuda = Raise (mkException "CUDA error") /\
  fst (load_model stub_no_device (initial_world stub_no_device)) =
  Raise (mkRuntimeError "Model loading failed: CUDA error") /\
  model (globals (snd (load_model stub_no_device
                         (initial_world stub_no_device)))) <> None.
Proof.
  split; [reflexivity|]. split; [reflexivity|]. split; [reflexivity|].
  destruct (device_failure_leaves_both_bound stub_no_device
              (initial_world stub_no_device) tt tt
              (mkException "CUDA error") eq_refl eq_refl eq_refl)
    as (Hout & _ & Hmdl).
  split; [exact Hout | exact Hmdl].
Defined.

(** X4. The hook writes an ERROR record exactly when it raises, and then
    exactly one. *)
Theorem startup_logs_error_iff_raises (fw : Framework) (w : World fw) :
  error_count (log (snd (load_model fw w))) =
  (error_count (log w) +
   match fst (load_model fw w) with
   | Ok _ => 0
   | Raise _ => 1
   end)%nat.
Proof.
  destruct w as [[t0 m0 d0] l0]. run_hook.
  destruct (AutoTokenizer_from_pretrained fw _) as [t | e];
    [|rewrite !error_count_app; cbn; lia].
  destruct (AutoModel_from_pretrained fw MODEL_PATH) as [m | e];
    [|rewrite !error_count_app; cbn; lia].
  destruct (module_to fw m _) as [m' | e];
    rewrite !error_count_app; cbn; lia.
Qed.

(** ** The serving process *)

(** What the globals are while requests are served. *)
Lemma serving_globals (fw : Framework) (p : Process fw) :
  reachable fw p ->
  match p with
  | Serving w =>
      exists (t : Tokenizer fw) (m : Model fw),
        globals w =
        {| tokenizer := Some t; model := Some m;
           device := Some (startup_device fw) |}
  | _ => True
  end.
Proof.
  unfold reachable. induction 1 as [|y z Hstep Hreach IH]; [exact I|].
  destruct Hstep as [w | w c].
  - unfold boot. destruct (load_model fw w) as [[u | e] w'] eqn:E; [|exact I].
    destruct (load_model_returns fw w w' u E) as (t & m & _ & Hg).
    exists t, m; exact Hg.
  - rewrite handle_globals. exact IH.
Qed.

Lemma stub_ok_serving :
  reachable stub_ok (Serving (snd (load_model stub_ok (initial_world stub_ok)))).
Proof.
  unfold reachable.
  econstructor 2; [|constructor 1].
  pose proof (step_startup stub_ok (initial_world stub_ok)) as H.
  unfold boot in H. rewrite stub_ok_load in H. exact H.
Qed.

(** X5. Once startup has succeeded the service stays ready: in every
    state in which requests are served, GET /health reports both flags and
    [ready] true and the device chosen at startup, and no POST /analyze is
    answered 503. *)
Theorem serving_is_ready (fw : Framework) (w : World fw)
        (request : CodeAnalysisRequest) :
  reachable fw (Serving w) ->
  health_check fw (E := HTTPException) w =
  (Ok {| health_status := "healthy";
         model_loaded := true;
         tokenizer_loaded := true;
         health_device := if cuda_is_available fw then "cuda" else "cpu";
         ready := true |}, w) /\
  status_of (fst (analyze_code fw request w)) <> Some 503%Z.
Proof.
  intros Hr. destruct (serving_globals fw _ Hr) as (t & m & Hg).
  split.
  - unfold health_check, bind, get_globals, ret. rewrite Hg.
    cbn [model tokenizer device is_not_None andb str_device].
    unfold startup_device. destruct (cuda_is_available fw); reflexivity.
  - rewrite (analyze_code_loaded fw request w m t)
      by (rewrite Hg; reflexivity).
    cbn [fst].
    destruct (infer fw m t (device (globals w)) (code request)); cbn; discriminate.
Qed.

Lemma serving_is_ready_witness :
  reachable stub_ok (Serving (snd (load_model stub_ok (initial_world stub_ok))))
  /\
  status_of (fst (analyze_code stub_ok (mkRequest "int x;" "A.java")
                    (snd (load_model stub_ok (initial_world stub_ok)))))
  <> Some 503%Z.
Proof.
  split; [exact stub_ok_serving|].
  exact (proj2 (serving_is_ready stub_ok _ (mkRequest "int x;" "A.java")
                  stub_ok_serving)).
Defined.

(** One request: the log is extended, by one ERROR record when the reply
    is a 500 and by none otherwise. *)
Lemma handle_log (fw : Framework) (c : HttpCall) (w : World fw) :
  (exists entries, log (snd (handle fw c w)) = (log w ++ entries)%list) /\
  error_count (log (snd (handle fw c w))) =
  (error_count (log w) +
   if is_server_error (fst (handle fw c w)) then 1 else 0)%nat.
Proof.
  assert (Hsame : forall l : list LogRecord,
             (exists entries, l = (l ++ entries)%list) /\
             error_count l = (error_count l + 0)%nat).
  { intros l; split; [exists []; symmetry; apply app_nil_r | lia]. }
  destruct c as [| |b|]; try apply Hsame.
  cbn [handle]. unfold post_analyze.
  destruct (CodeAnalysisRequest_validate b) as [request|]; [|apply Hsame].
  destruct (model (globals w)) as [mdl|] eqn:Hm.
  - destruct (tokenizer (globals w)) as [tok|] eqn:Ht.
    + rewrite (analyze_code_loaded fw request w mdl tok Hm Ht).
      cbn [fst snd log]. split; [eexists; reflexivity|].
      rewrite error_count_app. unfold analysis_log.
      destruct (infer fw mdl tok (device (globals w)) (code request));
        reflexivity.
    + rewrite analyze_code_not_loaded by (right; exact Ht). apply Hsame.
  - rewrite analyze_code_not_loaded by (left; exact Hm). apply Hsame.
Qed.

(** X6. Over any sequence of requests the log only grows, and the number
    of ERROR records added is the number of replies with status 500: every
    500 is logged once, and the 503 and 422 replies are not logged. *)
Theorem errors_logged_are_the_500_replies (fw : Framework)
        (cs : list HttpCall) (w : World fw) :
  (exists entries, log (serve_all fw cs w) = (log w ++ entries)%list) /\
  error_count (log (serve_all fw cs w)) =
  (error_count (log w) +
   List.length (filter is_server_error (replies fw cs w)))%nat.
Proof.
  revert w; induction cs as [|c cs IH]; intros w; cbn [serve_all replies].
  - split; [exists []; symmetry; apply app_nil_r | cbn; lia].
  - destruct (IH (snd (handle fw c w))) as ([e2 He2] & Hcount).
    destruct (handle_log fw c w) as ([e1 He1] & Hone).
    split.
    + exists (e1 ++ e2)%list. rewrite He2, He1, app_assoc. reflexivity.
    + rewrite Hcount, Hone. cbn [filter].
      destruct (is_server_error (fst (handle fw c w))); cbn [List.length]; lia.
Qed.

(** X7. A sequence of GET requests leaves the world as it was: globals and
    log. *)
Theorem get_requests_leave_no_trace (fw : Framework) (cs : list HttpCall)
        (w : World fw) :
  forallb is_get cs = true ->
  serve_all fw cs w = w.
Proof.
  revert w; induction cs as [|c cs IH]; intros w H; [reflexivity|].
  cbn [forallb] in H. apply andb_prop in H as [Hc Hcs].
  cbn [serve_all]. destruct c; try discriminate; cbn; apply IH, Hcs.
Qed.

Lemma get_requests_leave_no_trace_witness :
  forallb is_get [GET_health; GET_root; GET_stats; GET_health] = true /\
  serve_all stub_ok [GET_health; GET_root; GET_stats; GET_health]
            (loaded stub_ok tt tt) = loaded stub_ok tt tt.
Proof.
  split; [reflexivity|].
  apply (get_requests_leave_no_trace stub_ok
           [GET_health; GET_root; GET_stats; GET_health]
           (loaded stub_ok tt tt)).
  reflexivity.
Defined.

(** X8. The status of POST /analyze is decided in this order: a body
    without [code] is answered 422 whether or not the model is loaded; then
    a missing model or tokenizer gives 503; then a failure of tokenization
    or inference gives 500; otherwise the request succeeds. *)
Theorem post_analyze_status (fw : Framework) (b : RequestBody) (w : World fw) :
  status_of (fst (post_analyze fw b w)) =
  match body_code b with
  | None => Some 422%Z
  | Some text =>
      match model (globals w), tokenizer (globals w) with
      | Some mdl, Some tok =>
          match infer fw mdl tok (device (globals w)) text with
          | Ok _ => None
          | Raise _ => Some 500%Z
          end
      | _, _ => Some 503%Z
      end
  end.
Proof.
  unfold post_analyze, CodeAnalysisRequest_validate.
  destruct (body_code b) as [text|]; [|reflexivity].
  set (request := {| code := text;
                     filename := match body_filename b with
                                 | Some f => f
                                 | None => default_filename
                                 end |}).
  destruct (model (globals w)) as [mdl|] eqn:Hm.
  - destruct (tokenizer (globals w)) as [tok|] eqn:Ht.
    + rewrite (analyze_code_loaded fw request w mdl tok Hm Ht). cbn [fst code request].
      destruct (infer fw mdl tok (device (globals w)) text); reflexivity.
    + rewrite analyze_code_not_loaded by (right; exact Ht). reflexivity.
  - rewrite analyze_code_not_loaded by (left; exact Hm).
    destruct (tokenizer (globals w)); reflexivity.
Qed.

(** ** The reported confidence and label *)

Lemma pow10_4 : (10 ^ 4 = 10000)%R.
Proof. simpl; lra. Qed.

Lemma Int_part_IZR (n : Z) : Int_part (IZR n) = n.
Proof.
  destruct (base_Int_part (IZR n)) as [Hlo Hhi].
  apply le_IZR in Hlo.
  assert (Hlt : (n - 1 < Int_part (IZR n))%Z).
  { apply lt_IZR. rewrite minus_IZR. lra. }
  lia.
Qed.

Lemma round_half_even_IZR (n : Z) : Numeric.round_half_even (IZR n) = n.
Proof.
  unfold Numeric.round_half_even. rewrite Int_part_IZR.
  destruct (Rlt_dec (IZR n - IZR n) (1 / 2)) as [_ | H];
    [reflexivity | exfalso; lra].
Qed.

Lemma round_half_even_lower (n : Z) (y : R) :
  (IZR n <= y)%R -> (n <= Numeric.round_half_even y)%Z.
Proof.
  intros Hy. unfold Numeric.round_half_even.
  destruct (base_Int_part y) as [Hlo Hhi].
  set (f := Int_part y) in *.
  assert (Hf : (n <= f)%Z).
  { apply Z.lt_succ_r, lt_IZR. rewrite succ_IZR. lra. }
  destruct (Rlt_dec (y - IZR f) (1 / 2)); [exact Hf|].
  destruct (Rlt_dec (1 / 2) (y - IZR f)); [lia|].
  destruct (Z.even f); lia.
Qed.

(** X10. With a two-label head the confidence that is reported, after
    rounding, is never below 0.5. *)
Theorem binary_confidence_at_least_half (fw : Framework)
        (request : CodeAnalysisRequest) (w : World fw)
        (mdl : Model fw) (tok : Tokenizer fw) (a b : R) (idx : nat) :
  model (globals w) = Some mdl ->
  tokenizer (globals w) = Some tok ->
  infer fw mdl tok (device (globals w)) (code request) = Ok ([a; b], idx) ->
  exists resp : CodeAnalysisResponse,
    fst (analyze_code fw request w) = Ok resp /\
    (1 / 2 <= confidence resp <= 1)%R.
Proof.
  intros Hm Ht Hi.
  pose proof (infer_argmax fw mdl tok _ _ _ _ Hi) as Ha.
  destruct (NumericFacts.argmax_spec [a; b] idx Ha) as [Hlt Hmax].
  pose proof (NumericFacts.softmax_nth_bounds [a; b] idx Hlt) as Hb.
  assert (Hhalf : (1 / 2 <= nth idx (Numeric.softmax [a; b]) 0)%R).
  { pose proof (softmax_pair_total a b) as Htot.
    assert (H0 : (nth 0 (Numeric.softmax [a; b]) 0 <=
                  nth idx (Numeric.softmax [a; b]) 0)%R)
      by (apply NumericFacts.softmax_monotone; [exact Hlt | cbn; lia | apply Hmax; cbn; lia]).
    assert (H1 : (nth 1 (Numeric.softmax [a; b]) 0 <=
                  nth idx (Numeric.softmax [a; b]) 0)%R)
      by (apply NumericFacts.softmax_monotone; [exact Hlt | cbn; lia | apply Hmax; cbn; lia]).
    lra. }
  exists (interpret (filename request) ([a; b], idx)).
  rewrite (analyze_code_loaded fw request w mdl tok Hm Ht), Hi.
  split; [reflexivity|].
  unfold interpret, selected_probability; cbn [confidence fst snd].
  split; [|apply NumericFacts.round_unit_interval, Hb].
  unfold Numeric.round. rewrite pow10_4.
  assert (Hz : (5000 <= Numeric.round_half_even
                          (nth idx (Numeric.softmax [a; b]) 0 * 10000)%R)%Z)
    by (apply round_half_even_lower; lra).
  apply IZR_le in Hz. lra.
Qed.

Lemma binary_confidence_at_least_half_witness :
  model (globals (loaded stub_ok tt tt)) = Some tt /\
  tokenizer (globals (loaded stub_ok tt tt)) = Some tt /\
  infer stub_ok tt tt (Some Cpu) "int x;" = Ok ([0%R; 1%R], 1%nat) /\
  exists resp : CodeAnalysisResponse,
    fst (analyze_code stub_ok (mkRequest "int x;" "A.java")
           (loaded stub_ok tt tt)) = Ok resp /\
    (1 / 2 <= confidence resp <= 1)%R.
Proof.
  split; [reflexivity|]. split; [reflexivity|].
  split; [apply stub_ok_infer|].
  exact (binary_confidence_at_least_half stub_ok (mkRequest "int x;" "A.java")
           (loaded stub_ok tt tt) tt tt 0%R 1%R 1%nat eq_refl eq_refl
           (stub_ok_infer (Some Cpu) "int x;")).
Defined.

Lemma round_of_ten_thousandths (z : Z) :
  Numeric.round (IZR z / 10000) 4 = (IZR z / 10000)%R.
Proof.
  unfold Numeric.round. rewrite pow10_4.
  replace (IZR z / 10000 * 10000)%R with (IZR z) by (field; lra).
  rewrite round_half_even_IZR. reflexivity.
Qed.

(** X12. Only index 1 means vulnerable: when the arg-max is any other
    index, index 2 and above of a head with more labels included, the
    response is "SAFE" with [is_vulnerable] false. *)
Theorem only_index_one_is_vulnerable (fw : Framework)
        (request : CodeAnalysisRequest) (w : World fw)
        (mdl : Model fw) (tok : Tokenizer fw) (logits : list R) (idx : nat) :
  model (globals w) = Some mdl ->
  tokenizer (globals w) = Some tok ->
  infer fw mdl tok (device (globals w)) (code request) = Ok (logits, idx) ->
  idx <> 1%nat ->
  fst (analyze_code fw request w) =
  Ok {| is_vulnerable := false;
        confidence := Numeric.round (nth idx (Numeric.softmax logits) 0%R) 4;
        prediction := "SAFE";
        resp_filename := filename request |}.
Proof.
  intros Hm Ht Hi Hne.
  rewrite (analyze_code_loaded fw request w mdl tok Hm Ht), Hi.
  unfold interpret, selected_probability, label_of; cbn [fst snd].
  apply Nat.eqb_neq in Hne. rewrite Hne. reflexivity.
Qed.

Lemma stub_three_labels_infer (dev : option Device) (text : string) :
  infer stub_three_labels tt tt dev text = Ok ([0%R; 0%R; 1%R], 2%nat).
Proof.
  unfold infer, argmax_item, stub_three_labels, stub;
    cbn [tokenizer_call tensors_to forward].
  unfold Numeric.argmax, Numeric.argmax_from.
  destruct (Rlt_dec 0 0) as [H | _]; [exfalso; lra|].
  destruct (Rlt_dec 0 1) as [_ | H]; [reflexivity | exfalso; lra].
Qed.

Lemma only_index_one_is_vulnerable_witness :
  model (globals (loaded stub_three_labels tt tt)) = Some tt /\
  tokenizer (globals (loaded stub_three_labels tt tt)) = Some tt /\
  infer stub_three_labels tt tt (Some Cpu) "int x;" =
  Ok ([0%R; 0%R; 1%R], 2%nat) /\
  2%nat <> 1%nat /\
  fst (analyze_code stub_three_labels (mkRequest "int x;" "A.java")
         (loaded stub_three_labels tt tt)) =
  Ok {| is_vulnerable := false;
        confidence :=
          Numeric.round (nth 2 (Numeric.softmax [0%R; 0%R; 1%R]) 0%R) 4;
        prediction := "SAFE";
        resp_filename := "A.java" |}.
Proof.
  split; [reflexivity|]. split; [reflexivity|].
  split; [apply stub_three_labels_infer|].
  split; [discriminate|].
  apply (only_index_one_is_vulnerable stub_three_labels
           (mkRequest "int x;" "A.java") (loaded stub_three_labels tt tt)
           tt tt [0%R; 0%R; 1%R] 2%nat eq_refl eq_refl
           (stub_three_labels_infer (Some Cpu) "int x;")).
  discriminate.
Defined.

(** X13. An undecided model is reported safe: when the two logits are
    equal the response is "SAFE" with confidence exactly 0.5. *)
Theorem undecided_model_reports_safe (fw : Framework)
        (request : CodeAnalysisRequest) (w : World fw)
        (mdl : Model fw) (tok : Tokenizer fw) (a : R) (idx : nat) :
  model (globals w) = Some mdl ->
  tokenizer (globals w) = Some tok ->
  infer fw mdl tok (device (globals w)) (code request) = Ok ([a; a], idx) ->
  fst (analyze_code fw request w) =
  Ok {| is_vulnerable := false;
        confidence := (1 / 2)%R;
        prediction := "SAFE";
        resp_filename := filename request |}.
Proof.
  intros Hm Ht Hi.
  pose proof (infer_argmax fw mdl tok _ _ _ _ Hi) as Ha.
  assert (Hidx : idx = 0%nat).
  { destruct (argmax_pair a a idx Ha) as [[-> _] | [_ Hlt]];
      [reflexivity | exfalso; lra]. }
  subst idx.
  rewrite (analyze_code_loaded fw request w mdl tok Hm Ht), Hi.
  unfold interpret, selected_probability, label_of; cbn [fst snd Nat.eqb].
  destruct (softmax_pair a a) as [-> _].
  pose proof (exp_pos a) as He.
  replace (exp a / (exp a + exp a))%R with (IZR 5000 / 10000)%R by (field; lra).
  rewrite round_of_ten_thousandths.
  replace (IZR 5000 / 10000)%R with (1 / 2)%R by lra.
  reflexivity.
Qed.

Lemma stub_tie_infer (dev : option Device) (text : string) :
  infer stub_tie tt tt dev text = Ok ([0%R; 0%R], 0%nat).
Proof.
  unfold infer, argmax_item, stub_tie, stub;
    cbn [tokenizer_call tensors_to forward].
  unfold Numeric.argmax, Numeric.argmax_from.
  destruct (Rlt_dec 0 0) as [H | _]; [exfalso; lra | reflexivity].
Qed.

Lemma undecided_model_reports_safe_witness :
  model (globals (loaded stub_tie tt tt)) = Some tt /\
  tokenizer (globals (loaded stub_tie tt tt)) = Some tt /\
  infer stub_tie tt tt (Some Cpu) "int x;" = Ok ([0%R; 0%R], 0%nat) /\
  fst (analyze_code stub_tie (mkRequest "int x;" "A.java")
         (loaded stub_tie tt tt)) =
  Ok {| is_vulnerable := false;
        confidence := (1 / 2)%R;
        prediction := "SAFE";
        resp_filename := "A.java" |}.
Proof.
  split; [reflexivity|]. split; [reflexivity|].
  split; [apply stub_tie_infer|].
  exact (undecided_model_reports_safe stub_tie (mkRequest "int x;" "A.java")
           (loaded stub_tie tt tt) tt tt 0%R 0%nat eq_refl eq_refl
           (stub_tie_infer (Some Cpu) "int x;")).
Defined.

(** X14. A head with a single label can only answer "SAFE", with
    confidence 1. *)
Theorem single_label_head_is_always_safe (fw : Framework)
        (request : CodeAnalysisRequest) (w : World fw)
        (mdl : Model fw) (tok : Tokenizer fw) (a : R) (idx : nat) :
  model (globals w) = Some mdl ->
  tokenizer (globals w) = Some tok ->
  infer fw mdl tok (device (globals w)) (code request) = Ok ([a], idx) ->
  fst (analyze_code fw request w) =
  Ok {| is_vulnerable := false;
        confidence := 1%R;
        prediction := "SAFE";
        resp_filename := filename request |}.
Proof.
  intros Hm Ht Hi.
  pose proof (infer_argmax fw mdl tok _ _ _ _ Hi) as Ha.
  cbn in Ha. injection Ha as <-.
  rewrite (analyze_code_loaded fw request w mdl tok Hm Ht), Hi.
  unfold interpret, selected_probability, label_of; cbn [fst snd Nat.eqb].
  unfold Numeric.softmax, Numeric.sum_exp; cbn [map fold_right nth].
  pose proof (exp_pos a) as He.
  replace (exp a / (exp a + 0))%R with (IZR 10000 / 10000)%R by (field; lra).
  rewrite round_of_ten_thousandths.
  replace (IZR 10000 / 10000)%R with 1%R by lra.
  reflexivity.
Qed.

Lemma stub_single_label_infer (dev : option Device) (text : string) :
  infer stub_single_label tt tt dev text = Ok ([0%R], 0%nat).
Proof. reflexivity. Qed.

Lemma single_label_head_is_always_safe_witness :
  model (globals (loaded stub_single_label tt tt)) = Some tt /\
  tokenizer (globals (loaded stub_single_label tt tt)) = Some tt /\
  infer stub_single_label tt tt (Some Cpu) "int x;" = Ok ([0%R], 0%nat) /\
  fst (analyze_code stub_single_label (mkRequest "int x;" "A.java")
         (loaded stub_single_label tt tt)) =
  Ok {| is_vulnerable := false;
        confidence := 1%R;
        prediction := "SAFE";
        resp_filename := "A.java" |}.
Proof.
  split; [reflexivity|]. split; [reflexivity|].
  split; [reflexivity|].
  exact (single_label_head_is_always_safe stub_single_label
           (mkRequest "int x;" "A.java") (loaded stub_single_label tt tt)
           tt tt 0%R 0%nat eq_refl eq_refl eq_refl).
Defined.

(** ** The Model Resource, stage by stage *)

(** What a raising hook leaves behind, by the call that failed. *)
Lemma load_model_failure_shape (fw : Framework) (w w' : World fw)
      (r : RuntimeError) :
  load_model fw w = (Raise r, w') ->
  exists x : PyException,
    acquire fw = Raise x /\ r = loading_failed x /\
    ((AutoTokenizer_from_pretrained fw "microsoft/graphcodebert-base" = Raise x /\
      tokenizer (globals w') = tokenizer (globals w) /\
      model (globals w') = model (globals w)) \/
     (exists t : Tokenizer fw,
         AutoTokenizer_from_pretrained fw "microsoft/graphcodebert-base" = Ok t /\
         AutoModel_from_pretrained fw MODEL_PATH = Raise x /\
         tokenizer (globals w') = Some t /\
         model (globals w') = model (globals w)) \/
     (exists (t : Tokenizer fw) (m : Model fw),
         AutoTokenizer_from_pretrained fw "microsoft/graphcodebert-base" = Ok t /\
         AutoModel_from_pretrained fw MODEL_PATH = Ok m /\
         module_to fw m (startup_device fw) = Raise x /\
         tokenizer (globals w') = Some t /\
         model (globals w') <> None)).
Proof.
  destruct w as [[t0 m0 d0] l0]. unfold acquire, startup_device. run_hook.
  destruct (AutoTokenizer_from_pretrained fw _) as [t | e] eqn:Et.
  - destruct (AutoModel_from_pretrained fw MODEL_PATH) as [m | e] eqn:Em.
    + destruct (module_to fw m _) as [m' | e] eqn:Ed; [discriminate|].
      intros H; injection H as <- <-. exists e.
      split; [reflexivity|]. split; [reflexivity|].
      right; right. exists t, m. cbn [globals tokenizer model].
      repeat split; try reflexivity; try assumption; discriminate.
    + intros H; injection H as <- <-. exists e.
      split; [reflexivity|]. split; [reflexivity|].
      right; left. exists t. cbn [globals tokenizer model].
      repeat split; reflexivity.
  - intros H; injection H as <- <-. exists e.
    split; [reflexivity|]. split; [reflexivity|].
    left. cbn [globals tokenizer model]. repeat split; reflexivity.
Qed.

(** C2, as the code has it.  Before the startup hook has run both globals
    are absent, and whenever requests are served both hold what the hook
    loaded.  The load itself is not atomic: a failure partway raises
    [RuntimeError] and leaves the globals as assigned so far, both absent
    when the tokenizer failed, the tokenizer without a model when the
    weights failed, both bound when the move to the device failed; in such
    a world the handler answers 503 as long as either is absent. *)
Theorem model_resource_by_stage (fw : Framework) (p : Process fw) :
  reachable fw p ->
  match p with
  | Booting w =>
      tokenizer (globals w) = None /\ model (globals w) = None
  | Serving w =>
      exists (t : Tokenizer fw) (m : Model fw),
        acquire fw = Ok (t, m) /\
        tokenizer (globals w) = Some t /\ model (globals w) = Some m
  | Aborted w e =>
      exists x : PyException,
        acquire fw = Raise x /\ e = loading_failed x /\
        ((AutoTokenizer_from_pretrained fw "microsoft/graphcodebert-base" =
          Raise x /\
          tokenizer (globals w) = None /\ model (globals w) = None) \/
         (exists t : Tokenizer fw,
             AutoTokenizer_from_pretrained fw "microsoft/graphcodebert-base" =
             Ok t /\
             AutoModel_from_pretrained fw MODEL_PATH = Raise x /\
             tokenizer (globals w) = Some t /\ model (globals w) = None) \/
         (exists (t : Tokenizer fw) (m : Model fw),
             AutoTokenizer_from_pretrained fw "microsoft/graphcodebert-base" =
             Ok t /\
             AutoModel_from_pretrained fw MODEL_PATH = Ok m /\
             module_to fw m (startup_device fw) = Raise x /\
             tokenizer (globals w) = Some t /\ model (globals w) <> None)) /\
        (forall request : CodeAnalysisRequest,
            tokenizer (globals w) = None \/ model (globals w) = None ->
            analyze_code fw request w = (Raise not_loaded, w))
  end.
Proof.
  unfold reachable. induction 1 as [|y z Hstep Hreach IH].
  - split; reflexivity.
  - destruct Hstep as [w | w c].
    + destruct IH as [Ht0 Hm0]. unfold boot.
      destruct (load_model fw w) as [[u | r] w'] eqn:E.
      * destruct (load_model_returns fw w w' u E) as (t & m & Ha & Hg).
        exists t, m. rewrite Hg. split; [exact Ha|]. split; reflexivity.
      * destruct (load_model_failure_shape fw w w' r E)
          as (x & Ha & Hr & Hshape).
        exists x. split; [exact Ha|]. split; [exact Hr|]. split.
        -- destruct Hshape as [(H1 & H2 & H3) | [(t & H1 & H2 & H3 & H4)
                                                | (t & m & H1 & H2 & H3 & H4 & H5)]].
           ++ left. rewrite H2, H3. auto.
           ++ right; left. exists t. rewrite H4. auto.
           ++ right; right. exists t, m. auto.
        -- intros request Hnone.
           apply analyze_code_not_loaded. tauto.
    + destruct IH as (t & m & Ha & Ht & Hm). exists t, m.
      rewrite handle_globals; auto.
Qed.

Lemma stub_no_weights_aborts :
  reachable stub_no_weights
            (boot stub_no_weights (initial_world stub_no_weights)).
Proof.
  unfold reachable. econstructor 2; [apply step_startup | constructor 1].
Qed.

Lemma model_resource_by_stage_witness :
  reachable stub_no_weights
            (boot stub_no_weights (initial_world stub_no_weights)) /\
  exists (w : World stub_no_weights) (e : RuntimeError),
    boot stub_no_weights (initial_world stub_no_weights) = Aborted w e /\
    forall request : CodeAnalysisRequest,
      analyze_code stub_no_weights request w = (Raise not_loaded, w).
Proof.
  split; [exact stub_no_weights_aborts|].
  pose proof (model_resource_by_stage stub_no_weights _ stub_no_weights_aborts)
    as H.
  destruct aborted_after_failed_weights as (w & e & Hw & _ & _ & Hm & _).
  rewrite Hw in H. destruct H as (_ & _ & _ & _ & H503).
  exists w, e. split; [exact Hw|].
  intros request. apply H503. right; exact Hm.
Defined.

(** C2, as stated, fails: the load is not atomic, and when the weights
    cannot be read the process reaches a state whose globals hold the
    tokenizer and no model. *)
Lemma half_initialised_state_is_reachable :
  ~ resource_is_all_or_nothing_everywhere.
Proof.
  intros Hall.
  pose proof (Hall stub_no_weights _ stub_no_weights_aborts) as H.
  destruct aborted_after_failed_weights as (w & e & Hw & _ & Ht & Hm & _).
  rewrite Hw in H. cbn [world_of] in H.
  destruct H as [[_ H] | [H _]]; congruence.
Qed.

(** ** Scores that are not numbers *)

Section NotANumber.

Import PrimFloat.

Lemma floating_argmax_from_lt (l : list float) :
  forall (best_i : nat) (best : float) (i : nat),
    (best_i < i)%nat ->
    (Floating.argmax_from best_i best i l < i + List.length l)%nat.
Proof.
  induction l as [|x t IH]; intros best_i best i Hlt; cbn [Floating.argmax_from List.length].
  - lia.
  - destruct (Floating.replaces best x).
    + specialize (IH i x (S i) ltac:(lia)). lia.
    + specialize (IH best_i best (S i) ltac:(lia)). lia.
Qed.

Lemma floating_argmax_lt (l : list float) (idx : nat) :
  Floating.argmax l = Some idx -> (idx < List.length l)%nat.
Proof.
  destruct l as [|x t]; cbn [Floating.argmax]; [discriminate|].
  intros H; injection H as <-.
  pose proof (floating_argmax_from_lt t 0 x 1 ltac:(lia)). cbn [List.length]. lia.
Qed.

Lemma floating_argmax_total (l : list float) :
  l <> [] -> exists idx : nat, Floating.argmax l = Some idx.
Proof. destruct l; [congruence | intros _; eexists; reflexivity]. Qed.

(** The arg-max of a row lands on its first NaN, and otherwise on its
    first largest entry. *)
Lemma floating_argmax_examples :
  Floating.argmax [nan; 0%float] = Some 0%nat /\
  Floating.argmax [0%float; nan] = Some 1%nat /\
  Floating.argmax [nan; nan] = Some 0%nat /\
  Floating.argmax [0%float; 1%float] = Some 1%nat /\
  Floating.argmax [1%float; 1%float] = Some 0%nat.
Proof. repeat split; reflexivity. Qed.

(** The handler on a loaded model whose calls all return. *)
Lemma floating_analyze_code_scored (fw : Framework) (sc : Floating.Scores fw)
      (request : CodeAnalysisRequest) (w : World fw)
      (mdl : Model fw) (tok : Tokenizer fw) (inputs inputs' : Tensors fw)
      (logits : list float) (idx : nat) :
  model (globals w) = Some mdl ->
  tokenizer (globals w) = Some tok ->
  tokenizer_call fw tok (code request) true true 512 = Ok inputs ->
  tensors_to fw inputs (device (globals w)) = Ok inputs' ->
  Floating.forward_logits sc mdl inputs' = Ok logits ->
  Floating.argmax logits = Some idx ->
  Floating.analyze_code fw sc request w =
  (Ok {| Floating.is_vulnerable := Nat.eqb idx 1;
         Floating.confidence :=
           Floating.builtin_round sc
             (nth idx (Floating.torch_softmax sc logits) 0%float) 4;
         Floating.prediction := label_of idx;
         Floating.resp_filename := filename request |},
   {| globals := globals w;
      log := log w ++
             [(INFO, Analyzing (filename request));
              (INFO, CodeLength (String.length (code request)));
              (INFO, PredictionFloat (label_of idx)
                       (nth idx (Floating.torch_softmax sc logits) 0%float))] |}).
Proof.
  intros Hm Ht Hcall Hto Hfwd Ha.
  unfold Floating.analyze_code, bind at 1, get_globals. rewrite Hm, Ht.
  unfold try_except, bind, call, logger_info, logger_error, emit, raise, ret,
    Floating.argmax_item; cbn [fst snd globals log].
  rewrite Hcall, Hto, Hfwd, Ha. unfold label_of.
  rewrite <- !app_assoc. reflexivity.
Qed.

Lemma nan_row_is_not_empty (l : list float) :
  existsb is_nan l = true -> l <> [].
Proof. destruct l; [discriminate | discriminate]. Qed.

(** C1 on the code.  The handler checks no score: when the logits of the
    forward pass hold a NaN, the softmax is NaN, the rounding keeps it, and
    POST /analyze succeeds with a confidence that is not a number and so
    not between 0 and 1, the range its docstring gives. *)
Theorem nan_logits_give_nan_confidence (fw : Framework)
        (sc : Floating.Scores fw) (request : CodeAnalysisRequest)
        (w : World fw) (mdl : Model fw) (tok : Tokenizer fw)
        (inputs inputs' : Tensors fw) (logits : list float) :
  model (globals w) = Some mdl ->
  tokenizer (globals w) = Some tok ->
  tokenizer_call fw tok (code request) true true 512 = Ok inputs ->
  tensors_to fw inputs (device (globals w)) = Ok inputs' ->
  Floating.forward_logits sc mdl inputs' = Ok logits ->
  existsb is_nan logits = true ->
  Floating.propagates_nan (Floating.torch_softmax sc) ->
  Floating.keeps_nan (Floating.builtin_round sc) ->
  exists (resp : Floating.Response) (w' : World fw),
    Floating.analyze_code fw sc request w = (Ok resp, w') /\
    Floating.confidence resp = nan /\
    Floating.in_unit_interval (Floating.confidence resp) = false /\
    (Floating.prediction resp = "VULNERABLE" \/
     Floating.prediction resp = "SAFE") /\
    Floating.resp_filename resp = filename request.
Proof.
  intros Hm Ht Hcall Hto Hfwd Hnan Hsoft Hround.
  destruct (floating_argmax_total logits (nan_row_is_not_empty _ Hnan))
    as [idx Ha].
  pose proof (floating_argmax_lt logits idx Ha) as Hlt.
  eexists; eexists.
  split; [exact (floating_analyze_code_scored fw sc request w mdl tok inputs
                   inputs' logits idx Hm Ht Hcall Hto Hfwd Ha)|].
  cbn [Floating.confidence Floating.prediction Floating.resp_filename].
  rewrite (Hsoft logits idx Hnan Hlt), Hround.
  split; [reflexivity|]. split; [reflexivity|].
  split; [|reflexivity].
  unfold label_of. destruct (Nat.eqb idx 1); [left | right]; reflexivity.
Qed.

Lemma nan_scores_propagate (fw : Framework) :
  Floating.propagates_nan (Floating.torch_softmax (Floating.nan_scores fw)).
Proof.
  intros l i Hnan Hi. cbn [Floating.torch_softmax Floating.nan_scores].
  rewrite Hnan. clear Hnan. revert i Hi.
  induction l as [|x t IH]; intros i Hi; cbn [List.length] in Hi; [lia|].
  destruct i as [|i]; cbn [map nth]; [reflexivity|].
  apply IH. lia.
Qed.

Lemma nan_scores_keep (fw : Framework) :
  Floating.keeps_nan (Floating.builtin_round (Floating.nan_scores fw)).
Proof. intros n; reflexivity. Qed.

Lemma nan_logits_give_nan_confidence_witness :
  Floating.forward_logits (Floating.nan_scores stub_ok) tt
    (chars "int x;") = Ok [nan; 0%float] /\
  existsb is_nan [nan; 0%float] = true /\
  exists (resp : Floating.Response) (w' : World stub_ok),
    Floating.analyze_code stub_ok (Floating.nan_scores stub_ok)
      (mkRequest "int x;" "A.java") (loaded stub_ok tt tt) = (Ok resp, w') /\
    Floating.confidence resp = nan /\
    Floating.in_unit_interval (Floating.confidence resp) = false.
Proof.
  split; [reflexivity|]. split; [reflexivity|].
  destruct (nan_logits_give_nan_confidence stub_ok (Floating.nan_scores stub_ok)
              (mkRequest "int x;" "A.java") (loaded stub_ok tt tt) tt tt
              (chars "int x;") (chars "int x;") [nan; 0%float]
              eq_refl eq_refl eq_refl eq_refl eq_refl eq_refl
              (nan_scores_propagate stub_ok) (nan_scores_keep stub_ok))
    as (resp & w' & Hrun & Hc & Hr & _).
  exists resp, w'. split; [exact Hrun|]. split; [exact Hc | exact Hr].
Defined.

(** C6 on the code.  With a NaN among the two logits the class picked by
    arg-max has a softmax probability that is not a number: it is not at
    least the other class's, it is not at least one half, and the
    confidence reported is NaN. *)
Theorem nan_pair_has_no_most_probable_class (fw : Framework)
        (sc : Floating.Scores fw) (request : CodeAnalysisRequest)
        (w : World fw) (mdl : Model fw) (tok : Tokenizer fw)
        (inputs inputs' : Tensors fw) (a b : float) :
  model (globals w) = Some mdl ->
  tokenizer (globals w) = Some tok ->
  tokenizer_call fw tok (code request) true true 512 = Ok inputs ->
  tensors_to fw inputs (device (globals w)) = Ok inputs' ->
  Floating.forward_logits sc mdl inputs' = Ok [a; b] ->
  existsb is_nan [a; b] = true ->
  Floating.propagates_nan (Floating.torch_softmax sc) ->
  Floating.keeps_nan (Floating.builtin_round sc) ->
  exists (idx : nat) (resp : Floating.Response) (w' : World fw),
    Floating.argmax [a; b] = Some idx /\
    (idx = 0%nat \/ idx = 1%nat) /\
    nth idx (Floating.torch_softmax sc [a; b]) 0%float = nan /\
    (nth (1 - idx) (Floating.torch_softmax sc [a; b]) 0 <=?
     nth idx (Floating.torch_softmax sc [a; b]) 0)%float = false /\
    (0.5 <=? nth idx (Floating.torch_softmax sc [a; b]) 0)%float = false /\
    Floating.analyze_code fw sc request w = (Ok resp, w') /\
    Floating.confidence resp = nan.
Proof.
  intros Hm Ht Hcall Hto Hfwd Hnan Hsoft Hround.
  destruct (floating_argmax_total [a; b] (nan_row_is_not_empty _ Hnan))
    as [idx Ha].
  pose proof (floating_argmax_lt [a; b] idx Ha) as Hlt. cbn [List.length] in Hlt.
  assert (Hother : (1 - idx < List.length [a; b])%nat) by (cbn [List.length]; lia).
  exists idx. eexists; eexists.
  split; [exact Ha|]. split; [lia|].
  rewrite (Hsoft [a; b] idx Hnan Hlt), (Hsoft [a; b] (1 - idx)%nat Hnan Hother).
  split; [reflexivity|]. split; [reflexivity|]. split; [reflexivity|].
  split; [exact (floating_analyze_code_scored fw sc request w mdl tok inputs
                   inputs' [a; b] idx Hm Ht Hcall Hto Hfwd Ha)|].
  cbn [Floating.confidence].
  rewrite (Hsoft [a; b] idx Hnan Hlt), Hround. reflexivity.
Qed.

Lemma nan_pair_has_no_most_probable_class_witness :
  Floating.forward_logits (Floating.nan_scores stub_ok) tt
    (chars "int x;") = Ok [nan; 0%float] /\
  existsb is_nan [nan; 0%float] = true /\
  exists idx : nat,
    Floating.argmax [nan; 0%float] = Some idx /\
    (0.5 <=? nth idx (Floating.torch_softmax (Floating.nan_scores stub_ok)
                        [nan; 0]) 0)%float = false.
Proof.
  split; [reflexivity|]. split; [reflexivity|].
  destruct (nan_pair_has_no_most_probable_class stub_ok
              (Floating.nan_scores stub_ok)
              (mkRequest "int x;" "A.java") (loaded stub_ok tt tt) tt tt
              (chars "int x;") (chars "int x;") nan 0%float
              eq_refl eq_refl eq_refl eq_refl eq_refl eq_refl
              (nan_scores_propagate stub_ok) (nan_scores_keep stub_ok))
    as (idx & _ & _ & Ha & _ & _ & _ & Hhalf & _).
  exists idx. split; [exact Ha | exact Hhalf].
Defined.

End NotANumber.
